(* ===================================================================== *)
(* Graphiti MCP client and web front end: a shallow embedding            *)
(*                                                                       *)
(*   mcp_client_web/graphiti_mcp_client.py   the session wrapper         *)
(*   mcp_client_web/app.py                   the Flask routes            *)
(*                                                                       *)
(* The wrapper is effectful Python: it mutates its own attributes, logs, *)
(* raises, and awaits calls into the MCP client library.  The embedding  *)
(* is a state-and-exception monad over a world made of the wrapper       *)
(* object and the history of everything the wrapper did to the outside   *)
(* (library calls and log records).  A raise keeps the world reached so  *)
(* far, as in Python.  The library, the remote server and json.loads are *)
(* collaborators: they are taken as an arbitrary record of answers, each *)
(* answer a function of the history, so every theorem holds for every    *)
(* behaviour of the collaborators.                                       *)
(*                                                                       *)
(* Exceptions of the model are instances of Python's Exception, the      *)
(* class every handler of the two files names.                           *)
(* ===================================================================== *)

From stdpp Require Import base gmap strings list fin_maps.

Set Warnings "-register-all,-clear-no-such-hyp".

Local Open Scope Z_scope.
Local Open Scope string_scope.

(* --------------------------------------------------------------------- *)
(* Python values                                                          *)
(* --------------------------------------------------------------------- *)

(** What json.loads produces, what a request body holds and what goes
    into a parameter mapping.  A float is kept by its literal; nothing
    computes with it.  A [VDict] is an association list in insertion
    order; [alist_get] reads the first binding of a key. *)
Inductive value : Type :=
| VNone
| VBool (b : bool)
| VInt (n : Z)
| VFloat (literal : string)
| VStr (s : string)
| VList (items : list value)
| VDict (entries : list (string * value)).

Fixpoint alist_get (entries : list (string * value)) (key : string) : option value :=
  match entries with
  | [] => None
  | (k, v) :: rest => if String.eqb k key then Some v else alist_get rest key
  end.

(** isinstance(v, dict) *)
Definition is_dict (v : value) : bool :=
  match v with VDict _ => true | _ => false end.

(** type(v).__name__ *)
Definition type_name (v : value) : string :=
  match v with
  | VNone => "NoneType"
  | VBool _ => "bool"
  | VInt _ => "int"
  | VFloat _ => "float"
  | VStr _ => "str"
  | VList _ => "list"
  | VDict _ => "dict"
  end.

(* --------------------------------------------------------------------- *)
(* Exceptions                                                             *)
(* --------------------------------------------------------------------- *)

Inductive exn_class : Type :=
| RuntimeError
| NotImplementedError          (* subclass of RuntimeError *)
| RecursionError               (* subclass of RuntimeError *)
| ValueError
| JSONDecodeError              (* subclass of ValueError *)
| AttributeError
| TypeError
| LibraryError (name : string) (* raised by mcp, the transport, flask *).

Record exn : Type := Exn { exn_class_of : exn_class; exn_str : string }.

(** isinstance(e, (json.JSONDecodeError, ValueError)) *)
Definition is_ValueError (e : exn) : bool :=
  match exn_class_of e with
  | ValueError | JSONDecodeError => true
  | _ => false
  end.

Inductive result (A : Type) : Type :=
| Return (a : A)
| Raise (e : exn).
Arguments Return {A} a.
Arguments Raise {A} e.

(* --------------------------------------------------------------------- *)
(* Replies of the remote call                                             *)
(* --------------------------------------------------------------------- *)

(** An item of [result.content]: a text item has a [text] attribute, any
    other item (image, embedded resource) has not and is only known by
    its [str()]. *)
Inductive content_item : Type :=
| TextContent (text : string)
| OtherContent (str_of : string).

(** The object [call_tool] returns, by what [_convert_result_to_dict]
    asks of it: whether it has a [content] attribute, whether that is a
    list, and for a content that is no list its truth value and str(). *)
Inductive call_tool_result : Type :=
| NoContentAttribute
| ContentList (items : list content_item)
| ContentObject (truthy : bool) (str_of : string).

(* --------------------------------------------------------------------- *)
(* The world: the wrapper object and the history                          *)
(* --------------------------------------------------------------------- *)

Inductive level : Type := INFO | WARNING | ERROR.

(** The object interpolated at the end of a log record's f-string. *)
Inductive log_arg : Type :=
| ArgValue (v : value)
| ArgExn (e : exn)
| ArgResources (listing : string).

Inductive event : Type :=
| TransportEnter (url : string)            (* sse_client(url).__aenter__() *)
| SessionEnter                             (* session.__aenter__() *)
| SessionInitialize                        (* session.initialize() *)
| ListResources                            (* session.list_resources() *)
| CallTool (name : string) (arguments : gmap string value)
                                           (* session.call_tool(name, arguments) *)
| SessionExit (exc : option exn)           (* session.__aexit__(...) *)
| TransportExit (exc : option exn)         (* client.__aexit__(...) *)
| Log (lvl : level) (text : string) (arg : option log_arg).

(** Every event but a log record reaches the transport. *)
Definition is_network (ev : event) : bool :=
  match ev with Log _ _ _ => false | _ => true end.

(** read_stream, write_stream *)
Definition streams : Type := (nat * nat)%type.

Inductive ClientSession : Type :=
| NewClientSession (read_write : streams).

Inductive sse_client : Type :=
| NewSseClient (url : string).

(** The attributes of a GraphitiMCPClient.  [client] and [client_streams]
    do not exist until __aenter__ assigns them: [None] is the missing
    attribute.  [session] exists from __init__ on and holds Python's None
    until __aenter__ assigns it. *)
Record GraphitiMCPClient : Type := {
  transport : string;
  server_url : string;
  session : option ClientSession;
  client : option sse_client;
  client_streams : option streams
}.

Record world : Type := {
  self : GraphitiMCPClient;
  history : list event
}.

(* --------------------------------------------------------------------- *)
(* The monad                                                              *)
(* --------------------------------------------------------------------- *)

Definition M (A : Type) : Type := world → result A * world.

#[global] Instance M_ret : MRet M := λ A a w, (Return a, w).

#[global] Instance M_bind : MBind M := λ A B f c w,
  match c w with
  | (Return a, w') => f a w'
  | (Raise e, w') => (Raise e, w')
  end.

Definition raise {A : Type} (e : exn) : M A := λ w, (Raise e, w).

(** try: body / except Exception as e: handler e *)
Definition try_except {A : Type} (body : M A) (handler : exn → M A) : M A := λ w,
  match body w with
  | (Return a, w') => (Return a, w')
  | (Raise e, w') => handler e w'
  end.

Definition lift {A : Type} (r : result A) : M A := λ w, (r, w).

Definition get_self : M GraphitiMCPClient := λ w, (Return (self w), w).

Definition set_self (f : GraphitiMCPClient → GraphitiMCPClient) : M unit := λ w,
  (Return tt, {| self := f (self w); history := history w |}).

(** One awaited call into a collaborator: the call is appended to the
    history and answered from the history before it. *)
Definition await {A : Type} (ev : event) (answer : list event → result A) : M A := λ w,
  (answer (history w), {| self := self w; history := history w ++ [ev] |}).

Definition log (lvl : level) (text : string) (arg : option log_arg) : M unit := λ w,
  (Return tt, {| self := self w; history := history w ++ [Log lvl text arg] |}).

(* --------------------------------------------------------------------- *)
(* Scripts: the world and standard output                                 *)
(* --------------------------------------------------------------------- *)

(** One print(): the text of the f-string and the object interpolated at
    its end. *)
Record printed : Type := Printed { printed_text : string; printed_arg : option log_arg }.

(** A running script: the world of the wrapper and what was printed. *)
Record process : Type := {
  the_world : world;
  stdout : list printed
}.

Definition IO (A : Type) : Type := process → result A * process.

#[global] Instance IO_ret : MRet IO := λ A a p, (Return a, p).

#[global] Instance IO_bind : MBind IO := λ A B f c p,
  match c p with
  | (Return a, p') => f a p'
  | (Raise e, p') => (Raise e, p')
  end.

(** A step of the wrapper inside a script. *)
Definition run_world {A : Type} (m : M A) : IO A := λ p,
  match m (the_world p) with
  | (r, w') => (r, {| the_world := w'; stdout := stdout p |})
  end.

Definition print (text : string) (arg : option log_arg) : IO unit := λ p,
  (Return tt, {| the_world := the_world p; stdout := stdout p ++ [Printed text arg] |}).

(** try: body / except Exception as e: handler e, in a script *)
Definition try_except_io {A : Type} (body : IO A) (handler : exn → IO A) : IO A := λ p,
  match body p with
  | (Return a, p') => (Return a, p')
  | (Raise e, p') => handler e p'
  end.

(** The double quote and the line feed of a Python string literal. *)
Definition dq : string := String (Ascii.ascii_of_nat 34) "".
Definition nl : string := String (Ascii.ascii_of_nat 10) "".

(* --------------------------------------------------------------------- *)
(* The collaborators                                                      *)
(* --------------------------------------------------------------------- *)

(** json.loads, the SSE transport and the MCP session.  An awaited call
    is answered from the history before it, so a collaborator may answer
    the same call differently each time. *)
Record collaborators : Type := {
  json_loads : string → result value;
  sse_client_aenter : string → list event → result streams;
  session_aenter : list event → result unit;
  session_initialize : list event → result unit;
  session_list_resources : list event → result string;
  session_call_tool : string → gmap string value → list event → result call_tool_result;
  session_aexit : option exn → list event → result unit;
  client_aexit : option exn → list event → result unit
}.

(* ===================================================================== *)
(* mcp_client_web/graphiti_mcp_client.py                                  *)
(* ===================================================================== *)

(** What parser.parse_args() returns: --transport (argparse lets "sse"
    and "stdio" through), --server-url and --demo. *)
Record Namespace : Type := {
  args_transport : string;
  args_server_url : string;
  args_demo : bool
}.

Module graphiti_mcp_client.
Section wrapper.

Variable X : collaborators.

Definition success_placeholder : value :=
  VDict [("message", VStr "Operation completed successfully")].

(** def _convert_result_to_dict(result) *)
Definition _convert_result_to_dict (res : call_tool_result) : result value :=
  match res with
  | ContentList (content_item :: _) =>
      match content_item with
      | TextContent text =>
          match json_loads X text with
          | Return parsed => Return parsed
          | Raise e =>
              if is_ValueError e then Return (VDict [("message", VStr text)])
              else Raise e
          end
      | OtherContent str_of => Return (VDict [("message", VStr str_of)])
      end
  | ContentObject true str_of => Return (VDict [("message", VStr str_of)])
  | NoContentAttribute | ContentList [] | ContentObject false _ =>
      Return success_placeholder
  end.

(** GraphitiMCPClient.__init__ *)
Definition __init__ (transport server_url : string) : M unit := λ w,
  (Return tt,
   {| self := {| transport := transport; server_url := server_url;
                 session := None; client := None; client_streams := None |};
      history := history w |}).

Definition set_client (c : sse_client) (o : GraphitiMCPClient) : GraphitiMCPClient :=
  {| transport := transport o; server_url := server_url o; session := session o;
     client := Some c; client_streams := client_streams o |}.

Definition set_client_streams (st : streams) (o : GraphitiMCPClient) : GraphitiMCPClient :=
  {| transport := transport o; server_url := server_url o; session := session o;
     client := client o; client_streams := Some st |}.

Definition set_session (s : ClientSession) (o : GraphitiMCPClient) : GraphitiMCPClient :=
  {| transport := transport o; server_url := server_url o; session := Some s;
     client := client o; client_streams := client_streams o |}.

(** async def __aenter__(self) *)
Definition __aenter__ : M unit :=
  me ← get_self;
  (if String.eqb (transport me) "sse" then
     set_self (set_client (NewSseClient (server_url me)));;
     st ← await (TransportEnter (server_url me)) (sse_client_aenter X (server_url me));
     set_self (set_client_streams st);;
     set_self (set_session (NewClientSession st))
   else if String.eqb (transport me) "stdio" then
     raise (Exn NotImplementedError "Stdio transport not implemented in this example")
   else
     raise (Exn ValueError ("Unsupported transport: " +:+ transport me)));;
  await SessionEnter (session_aenter X).

(** async def __aexit__(self, exc_type, exc_val, exc_tb) *)
Definition __aexit__ (exc : option exn) : M unit :=
  try_except
    (me ← get_self;
     match session me with
     | Some _ => await (SessionExit exc) (session_aexit X exc)
     | None => mret tt
     end)
    (λ e, log WARNING "Error closing session: " (Some (ArgExn e)));;
  try_except
    (me ← get_self;
     match client me with
     | Some _ => await (TransportExit exc) (client_aexit X exc)
     | None => mret tt
     end)
    (λ e, log WARNING "Error closing client: " (Some (ArgExn e))).

(** async with <the wrapper> as client: body.  __aexit__ is not run when
    __aenter__ raises; it returns None, so an exception of the body
    propagates after it. *)
Definition async_with {A : Type} (body : M A) : M A := λ w,
  match __aenter__ w with
  | (Raise e, w1) => (Raise e, w1)
  | (Return _, w1) =>
      match body w1 with
      | (Return a, w2) =>
          match __aexit__ None w2 with
          | (Return _, w3) => (Return a, w3)
          | (Raise e, w3) => (Raise e, w3)
          end
      | (Raise e, w2) =>
          match __aexit__ (Some e) w2 with
          | (Return _, w3) => (Raise e, w3)
          | (Raise e', w3) => (Raise e', w3)
          end
      end
  end.

Definition not_initialized : exn := Exn RuntimeError "Client session not initialized".

(** if not self.session: raise RuntimeError("Client session not initialized") *)
Definition require_session : M unit :=
  me ← get_self;
  match session me with
  | None => raise not_initialized
  | Some _ => mret tt
  end.

(** async def initialize(self) *)
Definition initialize : M unit :=
  require_session;;
  await SessionInitialize (session_initialize X);;
  log INFO "Connected to Graphiti MCP Server" None.

(** async def get_status(self) *)
Definition get_status : M value :=
  require_session;;
  try_except
    (resources ← await ListResources (session_list_resources X);
     log INFO "Available resources: " (Some (ArgResources resources));;
     mret (VDict [("status", VStr "connected");
                  ("message", VStr "Successfully connected to MCP server")]))
    (λ e,
     log ERROR "Error getting server status: " (Some (ArgExn e));;
     mret (VDict [("status", VStr "connected");
                  ("message", VStr "Connected to MCP server (resource listing failed)")])).

(** await self.session.call_tool(name, arguments) *)
Definition call_tool (name : string) (arguments : gmap string value) : M call_tool_result :=
  await (CallTool name arguments) (session_call_tool X name arguments).

(** async def add_memory(self, name, episode_body, group_id=None,
                         source="text", source_description="", uuid=None) *)
Definition add_memory (name episode_body group_id source source_description uuid : value)
  : M value :=
  require_session;;
  try_except
    (res ← call_tool "add_memory"
             {[ "name" := name;
                "episode_body" := episode_body;
                "group_id" := group_id;
                "source" := source;
                "source_description" := source_description;
                "uuid" := uuid ]};
     log INFO "Added memory episode: " (Some (ArgValue name));;
     lift (_convert_result_to_dict res))
    (λ e, log ERROR "Error adding memory: " (Some (ArgExn e));; raise e).

(** if v is not None: params[key] = v *)
Definition set_if_not_None (key : string) (v : value) (params : gmap string value)
  : gmap string value :=
  match v with
  | VNone => params
  | _ => <[key := v]> params
  end.

(** async def search_memory_nodes(self, query, group_ids=None, max_nodes=10,
                                  center_node_uuid=None, entity="") *)
Definition search_memory_nodes (query group_ids max_nodes center_node_uuid entity : value)
  : M value :=
  require_session;;
  try_except
    (let params : gmap string value :=
       {[ "query" := query; "max_nodes" := max_nodes; "entity" := entity ]} in
     let params := set_if_not_None "group_ids" group_ids params in
     let params := set_if_not_None "center_node_uuid" center_node_uuid params in
     res ← call_tool "search_memory_nodes" params;
     log INFO "Search nodes completed" None;;
     lift (_convert_result_to_dict res))
    (λ e, log ERROR "Error searching nodes: " (Some (ArgExn e));; raise e).

(** async def search_memory_facts(self, query, group_ids=None, max_facts=10,
                                  center_node_uuid=None) *)
Definition search_memory_facts (query group_ids max_facts center_node_uuid : value)
  : M value :=
  require_session;;
  try_except
    (let params : gmap string value :=
       {[ "query" := query; "max_facts" := max_facts ]} in
     let params := set_if_not_None "group_ids" group_ids params in
     let params := set_if_not_None "center_node_uuid" center_node_uuid params in
     res ← call_tool "search_memory_facts" params;
     log INFO "Search facts completed" None;;
     lift (_convert_result_to_dict res))
    (λ e, log ERROR "Error searching facts: " (Some (ArgExn e));; raise e).

(** async def delete_entity_edge(self, uuid) *)
Definition delete_entity_edge (uuid : value) : M value :=
  require_session;;
  try_except
    (res ← call_tool "delete_entity_edge" {[ "uuid" := uuid ]};
     log INFO "Deleted entity edge: " (Some (ArgValue uuid));;
     lift (_convert_result_to_dict res))
    (λ e, log ERROR "Error deleting entity edge: " (Some (ArgExn e));; raise e).

(** async def delete_episode(self, uuid) *)
Definition delete_episode (uuid : value) : M value :=
  require_session;;
  try_except
    (res ← call_tool "delete_episode" {[ "uuid" := uuid ]};
     log INFO "Deleted episode: " (Some (ArgValue uuid));;
     lift (_convert_result_to_dict res))
    (λ e, log ERROR "Error deleting episode: " (Some (ArgExn e));; raise e).

(** async def get_entity_edge(self, uuid) *)
Definition get_entity_edge (uuid : value) : M value :=
  require_session;;
  try_except
    (res ← call_tool "get_entity_edge" {[ "uuid" := uuid ]};
     log INFO "Retrieved entity edge: " (Some (ArgValue uuid));;
     lift (_convert_result_to_dict res))
    (λ e, log ERROR "Error getting entity edge: " (Some (ArgExn e));; raise e).

(** async def get_episodes(self, group_id=None, last_n=10) *)
Definition get_episodes (group_id last_n : value) : M value :=
  require_session;;
  try_except
    (let params : gmap string value := {[ "last_n" := last_n ]} in
     let params := set_if_not_None "group_id" group_id params in
     res ← call_tool "get_episodes" params;
     log INFO "Retrieved episodes for group: " (Some (ArgValue group_id));;
     lift (_convert_result_to_dict res))
    (λ e, log ERROR "Error getting episodes: " (Some (ArgExn e));; raise e).

(** async def clear_graph(self) *)
Definition clear_graph : M value :=
  require_session;;
  try_except
    (res ← call_tool "clear_graph" ∅;
     log INFO "Cleared graph" None;;
     lift (_convert_result_to_dict res))
    (λ e, log ERROR "Error clearing graph: " (Some (ArgExn e));; raise e).

(** One invocation of a remote operation: the method and its arguments,
    an optional argument the caller leaves out being the default None. *)
Inductive operation : Type :=
| Add_memory (name episode_body group_id source source_description uuid : value)
| Search_memory_nodes (query group_ids max_nodes center_node_uuid entity : value)
| Search_memory_facts (query group_ids max_facts center_node_uuid : value)
| Delete_entity_edge (uuid : value)
| Delete_episode (uuid : value)
| Get_entity_edge (uuid : value)
| Get_episodes (group_id last_n : value)
| Clear_graph.

Definition invoke (op : operation) : M value :=
  match op with
  | Add_memory name episode_body group_id source source_description uuid =>
      add_memory name episode_body group_id source source_description uuid
  | Search_memory_nodes query group_ids max_nodes center_node_uuid entity =>
      search_memory_nodes query group_ids max_nodes center_node_uuid entity
  | Search_memory_facts query group_ids max_facts center_node_uuid =>
      search_memory_facts query group_ids max_facts center_node_uuid
  | Delete_entity_edge uuid => delete_entity_edge uuid
  | Delete_episode uuid => delete_episode uuid
  | Get_entity_edge uuid => get_entity_edge uuid
  | Get_episodes group_id last_n => get_episodes group_id last_n
  | Clear_graph => clear_graph
  end.

(** `async with` around a script body that also prints: the same
    statement as [async_with], over a process. *)
Definition async_with_io {A : Type} (body : IO A) : IO A := λ p,
  match __aenter__ (the_world p) with
  | (Raise e, w1) => (Raise e, {| the_world := w1; stdout := stdout p |})
  | (Return _, w1) =>
      match body {| the_world := w1; stdout := stdout p |} with
      | (Return a, p2) =>
          match __aexit__ None (the_world p2) with
          | (Return _, w3) => (Return a, {| the_world := w3; stdout := stdout p2 |})
          | (Raise e, w3) => (Raise e, {| the_world := w3; stdout := stdout p2 |})
          end
      | (Raise e, p2) =>
          match __aexit__ (Some e) (the_world p2) with
          | (Return _, w3) => (Raise e, {| the_world := w3; stdout := stdout p2 |})
          | (Raise e', w3) => (Raise e', {| the_world := w3; stdout := stdout p2 |})
          end
      end
  end.

Definition json_data : string :=
  "{" +:+ dq +:+ "project" +:+ dq +:+ ": " +:+ dq +:+ "Graphiti MCP" +:+ dq +:+ ", "
  +:+ dq +:+ "version" +:+ dq +:+ ": " +:+ dq +:+ "1.0" +:+ dq +:+ ", "
  +:+ dq +:+ "features" +:+ dq +:+ ": [" +:+ dq +:+ "SSE transport" +:+ dq +:+ ", "
  +:+ dq +:+ "Tool integration" +:+ dq +:+ ", " +:+ dq +:+ "Resource access" +:+ dq +:+ "]}".

Definition message_data : string :=
  "user: What is the current status of the MCP implementation?" +:+ nl
  +:+ "assistant: The basic implementation is complete with all core tools.".

(** async def demo_client(transport="sse", server_url="http://localhost:8000/sse") *)
Definition demo_client (transport server_url : string) : IO unit :=
  run_world (log INFO "Starting Graphiti MCP Client demo" None);;
  run_world (__init__ transport server_url);;
  async_with_io
    (run_world initialize;;
     run_world (log INFO "1. Getting server status..." None);;
     status ← run_world get_status;
     print "Server Status: " (Some (ArgValue status));;
     run_world (log INFO "2. Adding sample memories..." None);;
     res ← run_world
             (add_memory (VStr "Project Meeting Notes")
                (VStr "Discussed the new feature requirements for the Q3 release. Team agreed on the timeline and resource allocation.")
                VNone (VStr "text") (VStr "meeting notes") VNone);
     print "Added text episode: " (Some (ArgValue res));;
     res ← run_world
             (add_memory (VStr "Project Configuration") (VStr json_data)
                VNone (VStr "json") (VStr "project config") VNone);
     print "Added JSON episode: " (Some (ArgValue res));;
     res ← run_world
             (add_memory (VStr "User Query") (VStr message_data)
                VNone (VStr "message") (VStr "chat transcript") VNone);
     print "Added message episode: " (Some (ArgValue res));;
     run_world (log INFO "3. Searching for nodes..." None);;
     res ← run_world
             (search_memory_nodes (VStr "project information") VNone (VInt 5) VNone (VStr ""));
     print "Node search result: " (Some (ArgValue res));;
     run_world (log INFO "4. Searching for facts..." None);;
     res ← run_world
             (search_memory_facts (VStr "feature requirements") VNone (VInt 5) VNone);
     print "Fact search result: " (Some (ArgValue res));;
     run_world (log INFO "5. Getting episodes..." None);;
     res ← run_world (get_episodes VNone (VInt 3));
     print "Episodes: " (Some (ArgValue res));;
     run_world (log INFO "Graphiti MCP Client demo completed successfully" None)).

(** def main(), from parser.parse_args() on.  The value is the status
    the interpreter exits with: 1 through sys.exit(1) in the handler,
    0 when main returns. *)
Definition main (args : Namespace) : IO Z :=
  try_except_io
    ((if args_demo args
      then demo_client (args_transport args) (args_server_url args)
      else run_world
             (log INFO "Graphiti MCP Client initialized. Use --demo to run the demo." None));;
     mret 0)
    (λ e,
     run_world (log ERROR "Error running Graphiti MCP Client: " (Some (ArgExn e)));;
     mret 1).

End wrapper.

(** The request of an invocation, read off the method bodies: the tool
    name, the parameter mapping, and the two log records.  Lemma
    [invoke_established] proves that the methods do exactly this. *)
Definition tool_name (op : operation) : string :=
  match op with
  | Add_memory _ _ _ _ _ _ => "add_memory"
  | Search_memory_nodes _ _ _ _ _ => "search_memory_nodes"
  | Search_memory_facts _ _ _ _ => "search_memory_facts"
  | Delete_entity_edge _ => "delete_entity_edge"
  | Delete_episode _ => "delete_episode"
  | Get_entity_edge _ => "get_entity_edge"
  | Get_episodes _ _ => "get_episodes"
  | Clear_graph => "clear_graph"
  end.

Definition arguments_sent (op : operation) : gmap string value :=
  match op with
  | Add_memory name episode_body group_id source source_description uuid =>
      {[ "name" := name;
         "episode_body" := episode_body;
         "group_id" := group_id;
         "source" := source;
         "source_description" := source_description;
         "uuid" := uuid ]}
  | Search_memory_nodes query group_ids max_nodes center_node_uuid entity =>
      set_if_not_None "center_node_uuid" center_node_uuid
        (set_if_not_None "group_ids" group_ids
           {[ "query" := query; "max_nodes" := max_nodes; "entity" := entity ]})
  | Search_memory_facts query group_ids max_facts center_node_uuid =>
      set_if_not_None "center_node_uuid" center_node_uuid
        (set_if_not_None "group_ids" group_ids
           {[ "query" := query; "max_facts" := max_facts ]})
  | Delete_entity_edge uuid | Delete_episode uuid | Get_entity_edge uuid =>
      {[ "uuid" := uuid ]}
  | Get_episodes group_id last_n =>
      set_if_not_None "group_id" group_id {[ "last_n" := last_n ]}
  | Clear_graph => ∅
  end.

Definition info_record (op : operation) : event :=
  match op with
  | Add_memory name _ _ _ _ _ => Log INFO "Added memory episode: " (Some (ArgValue name))
  | Search_memory_nodes _ _ _ _ _ => Log INFO "Search nodes completed" None
  | Search_memory_facts _ _ _ _ => Log INFO "Search facts completed" None
  | Delete_entity_edge uuid => Log INFO "Deleted entity edge: " (Some (ArgValue uuid))
  | Delete_episode uuid => Log INFO "Deleted episode: " (Some (ArgValue uuid))
  | Get_entity_edge uuid => Log INFO "Retrieved entity edge: " (Some (ArgValue uuid))
  | Get_episodes group_id _ =>
      Log INFO "Retrieved episodes for group: " (Some (ArgValue group_id))
  | Clear_graph => Log INFO "Cleared graph" None
  end.

Definition error_record (op : operation) (e : exn) : event :=
  Log ERROR
    match op with
    | Add_memory _ _ _ _ _ _ => "Error adding memory: "
    | Search_memory_nodes _ _ _ _ _ => "Error searching nodes: "
    | Search_memory_facts _ _ _ _ => "Error searching facts: "
    | Delete_entity_edge _ => "Error deleting entity edge: "
    | Delete_episode _ => "Error deleting episode: "
    | Get_entity_edge _ => "Error getting entity edge: "
    | Get_episodes _ _ => "Error getting episodes: "
    | Clear_graph => "Error clearing graph: "
    end
    (Some (ArgExn e)).

End graphiti_mcp_client.

(* ===================================================================== *)
(* mcp_client_web/app.py                                                  *)
(* ===================================================================== *)

(** What a handler reads of flask's request: the outcome of
    request.get_json(), the decoded body or the exception flask raises
    for a body it refuses. *)
Record request : Type := { get_json : result value }.

(** A flask response: the JSON body and the status code. *)
Record response : Type := { body : value; status : Z }.

Module app.
Section routes.

Variable X : collaborators.

(** os.environ.get('MCP_SERVER_URL', ...), os.environ.get('MCP_TRANSPORT', ...) *)
Variable MCP_SERVER_URL : string.
Variable MCP_TRANSPORT : string.

(** jsonify(v): status 200 unless the handler returns a pair. *)
Definition jsonify (v : value) : response := {| body := v; status := 200 |}.

(** jsonify({'error': str(e)}), 500 *)
Definition error_response (e : exn) : response :=
  {| body := VDict [("error", VStr (exn_str e))]; status := 500 |}.

(** data.get(key, fallback): only a dict has the method. *)
Definition dict_get (data : value) (key : string) (fallback : value) : result value :=
  match data with
  | VDict entries => Return (default fallback (alist_get entries key))
  | _ => Raise (Exn AttributeError
                  ("'" +:+ type_name data +:+ "' object has no attribute 'get'"))
  end.

(** async with GraphitiMCPClient(transport=MCP_TRANSPORT,
                                 server_url=MCP_SERVER_URL) as client:
        await client.initialize()
        ... *)
Definition with_client {A : Type} (body : M A) : M A :=
  graphiti_mcp_client.__init__ MCP_TRANSPORT MCP_SERVER_URL;;
  graphiti_mcp_client.async_with X (graphiti_mcp_client.initialize X;; body).

(** GraphitiMCPClient(...), __aenter__ and initialize() in a row: what
    a handler has done when it reaches its operation. *)
Definition open_client : M unit :=
  graphiti_mcp_client.__init__ MCP_TRANSPORT MCP_SERVER_URL;;
  graphiti_mcp_client.__aenter__ X;;
  graphiti_mcp_client.initialize X.

(** @app.route('/api/status') async def get_status() *)
Definition get_status : M response :=
  try_except
    (with_client
       (status ← graphiti_mcp_client.get_status X;
        mret (jsonify status)))
    (λ e, mret (error_response e)).

(** @app.route('/api/add_memory', methods=['POST']) async def add_memory() *)
Definition add_memory (req : request) : M response :=
  try_except
    (data ← lift (get_json req);
     name ← lift (dict_get data "name" (VStr ""));
     episode_body ← lift (dict_get data "episode_body" (VStr ""));
     source ← lift (dict_get data "source" (VStr "text"));
     source_description ← lift (dict_get data "source_description" (VStr ""));
     group_id ← lift (dict_get data "group_id" VNone);
     uuid ← lift (dict_get data "uuid" VNone);
     with_client
       (res ← graphiti_mcp_client.add_memory X
                name episode_body group_id source source_description uuid;
        mret (jsonify res)))
    (λ e, mret (error_response e)).

(** @app.route('/api/search_nodes', methods=['POST']) async def search_nodes() *)
Definition search_nodes (req : request) : M response :=
  try_except
    (data ← lift (get_json req);
     query ← lift (dict_get data "query" (VStr ""));
     group_ids ← lift (dict_get data "group_ids" VNone);
     max_nodes ← lift (dict_get data "max_nodes" (VInt 10));
     center_node_uuid ← lift (dict_get data "center_node_uuid" VNone);
     entity ← lift (dict_get data "entity" (VStr ""));
     with_client
       (res ← graphiti_mcp_client.search_memory_nodes X
                query group_ids max_nodes center_node_uuid entity;
        mret (jsonify res)))
    (λ e, mret (error_response e)).

(** @app.route('/api/search_facts', methods=['POST']) async def search_facts() *)
Definition search_facts (req : request) : M response :=
  try_except
    (data ← lift (get_json req);
     query ← lift (dict_get data "query" (VStr ""));
     group_ids ← lift (dict_get data "group_ids" VNone);
     max_facts ← lift (dict_get data "max_facts" (VInt 10));
     center_node_uuid ← lift (dict_get data "center_node_uuid" VNone);
     with_client
       (res ← graphiti_mcp_client.search_memory_facts X
                query group_ids max_facts center_node_uuid;
        mret (jsonify res)))
    (λ e, mret (error_response e)).

(** @app.route('/api/get_episodes', methods=['POST']) async def get_episodes() *)
Definition get_episodes (req : request) : M response :=
  try_except
    (data ← lift (get_json req);
     group_id ← lift (dict_get data "group_id" VNone);
     last_n ← lift (dict_get data "last_n" (VInt 10));
     with_client
       (res ← graphiti_mcp_client.get_episodes X group_id last_n;
        mret (jsonify res)))
    (λ e, mret (error_response e)).

(** def run_async(coro): the coroutine run to completion on a loop of
    its own. *)
Definition run_async {A : Type} (coro : M A) : M A := coro.

Definition get_status_sync : M response := run_async get_status.
Definition add_memory_sync (req : request) : M response := run_async (add_memory req).
Definition search_nodes_sync (req : request) : M response := run_async (search_nodes req).
Definition search_facts_sync (req : request) : M response := run_async (search_facts req).
Definition get_episodes_sync (req : request) : M response := run_async (get_episodes req).

(** The four POST routes under /api. *)
Inductive api_route : Type :=
| api_add_memory
| api_search_nodes
| api_search_facts
| api_get_episodes.

Definition post (route : api_route) (req : request) : M response :=
  match route with
  | api_add_memory => add_memory req
  | api_search_nodes => search_nodes req
  | api_search_facts => search_facts req
  | api_get_episodes => get_episodes req
  end.

End routes.

(** The invocation a handler makes for a decoded body with the fields
    [entries], read off the handlers; lemma [post_decoded] proves that
    the handlers do exactly this. *)
Definition route_operation (route : api_route) (entries : list (string * value))
  : graphiti_mcp_client.operation :=
  let field key fallback := default fallback (alist_get entries key) in
  match route with
  | api_add_memory =>
      graphiti_mcp_client.Add_memory
        (field "name" (VStr "")) (field "episode_body" (VStr ""))
        (field "group_id" VNone) (field "source" (VStr "text"))
        (field "source_description" (VStr "")) (field "uuid" VNone)
  | api_search_nodes =>
      graphiti_mcp_client.Search_memory_nodes
        (field "query" (VStr "")) (field "group_ids" VNone)
        (field "max_nodes" (VInt 10)) (field "center_node_uuid" VNone)
        (field "entity" (VStr ""))
  | api_search_facts =>
      graphiti_mcp_client.Search_memory_facts
        (field "query" (VStr "")) (field "group_ids" VNone)
        (field "max_facts" (VInt 10)) (field "center_node_uuid" VNone)
  | api_get_episodes =>
      graphiti_mcp_client.Get_episodes (field "group_id" VNone) (field "last_n" (VInt 10))
  end.

End app.

(* ===================================================================== *)
(* mcp_client/simple_test.py, test_tools.py, example_usage.py             *)
(* ===================================================================== *)

(** The three scripts import GraphitiMCPClient from graphiti_mcp_client;
    the class is the one embedded above. *)

Module simple_test.
Section script.

Variable X : collaborators.

(** async def test_connection() *)
Definition test_connection : IO bool :=
  print "Testing connection to Graphiti MCP Server..." None;;
  try_except_io
    (run_world (graphiti_mcp_client.__init__ "sse" "http://localhost:8000/sse");;
     graphiti_mcp_client.async_with_io X
       (print "Connected to MCP Server" None;;
        run_world (graphiti_mcp_client.initialize X);;
        print "Client initialized successfully" None;;
        print "Connection test successful!" None;;
        mret true))
    (λ e,
     print "Connection test failed: " (Some (ArgExn e));;
     mret false).

(** result = asyncio.run(test_connection()); sys.exit(0 if result else 1):
    the exit status. *)
Definition script : IO Z :=
  result ← test_connection;
  mret (if result : bool then 0 else 1).

End script.
End simple_test.

Module test_tools.
Section script.

Variable X : collaborators.

(** async def test_tools() *)
Definition test_tools : IO bool :=
  print "Testing tool calls to Graphiti MCP Server..." None;;
  try_except_io
    (run_world (graphiti_mcp_client.__init__ "sse" "http://localhost:8000/sse");;
     graphiti_mcp_client.async_with_io X
       (print "Connected to MCP Server" None;;
        run_world (graphiti_mcp_client.initialize X);;
        print "Client initialized successfully" None;;
        res ← run_world
                (graphiti_mcp_client.add_memory X (VStr "Test Note")
                   (VStr "This is a test note from the MCP client.")
                   VNone (VStr "text") (VStr "test") VNone);
        print "Add memory result: " (Some (ArgValue res));;
        print "Tool test successful!" None;;
        mret true))
    (λ e,
     print "Tool test failed: " (Some (ArgExn e));;
     mret false).

(** result = asyncio.run(test_tools()); sys.exit(0 if result else 1) *)
Definition script : IO Z :=
  result ← test_tools;
  mret (if result : bool then 0 else 1).

End script.
End test_tools.

Module example_usage.
Section script.

Variable X : collaborators.

(** async def example_usage() *)
Definition example_usage : IO unit :=
  run_world (graphiti_mcp_client.__init__ "sse" "http://localhost:8000/sse");;
  graphiti_mcp_client.async_with_io X
    (run_world (graphiti_mcp_client.initialize X);;
     status ← run_world (graphiti_mcp_client.get_status X);
     print "Server Status: " (Some (ArgValue status));;
     res ← run_world
             (graphiti_mcp_client.add_memory X (VStr "Example Note")
                (VStr "This is an example note added through the MCP client.")
                VNone (VStr "text") (VStr "example") VNone);
     print "Add Memory Result: " (Some (ArgValue res));;
     nodes ← run_world
               (graphiti_mcp_client.search_memory_nodes X
                  (VStr "example") VNone (VInt 5) VNone (VStr ""));
     print "Search Nodes Result: " (Some (ArgValue nodes));;
     facts ← run_world
               (graphiti_mcp_client.search_memory_facts X
                  (VStr "example") VNone (VInt 5) VNone);
     print "Search Facts Result: " (Some (ArgValue facts))).

End script.
End example_usage.

(* ===================================================================== *)
(* The remote contract                                                    *)
(* ===================================================================== *)

(** The tools of the server and their parameter keys as the external
    interface lists them, a key marked `?` there being optional:
    the pair is (required keys, optional keys).  This table follows the
    interface description, not the methods; claim C7 compares the two. *)
Definition contract : list (string * (gset string * gset string)) :=
  [ ("add_memory",
       ({[ "name"; "episode_body"; "source"; "source_description" ]},
        {[ "group_id"; "uuid" ]}));
    ("search_memory_nodes",
       ({[ "query"; "max_nodes"; "entity" ]}, {[ "group_ids"; "center_node_uuid" ]}));
    ("search_memory_facts",
       ({[ "query"; "max_facts" ]}, {[ "group_ids"; "center_node_uuid" ]}));
    ("delete_entity_edge", ({[ "uuid" ]}, ∅));
    ("delete_episode", ({[ "uuid" ]}, ∅));
    ("get_entity_edge", ({[ "uuid" ]}, ∅));
    ("get_episodes", ({[ "last_n" ]}, {[ "group_id" ]}));
    ("clear_graph", (∅, ∅)) ].

Fixpoint contract_lookup (table : list (string * (gset string * gset string)))
    (name : string) : option (gset string * gset string) :=
  match table with
  | [] => None
  | (n, keys) :: rest => if String.eqb n name then Some keys else contract_lookup rest name
  end.

(* ===================================================================== *)
(* Worlds and scripted collaborators for concrete runs                    *)
(* ===================================================================== *)

(** The world [w] extended by the events [evs]. *)
Definition extend (w : world) (evs : list event) : world :=
  {| self := self w; history := history w ++ evs |}.

(** The events of [w'] that came after those of [w]. *)
Definition events_since (w w' : world) : list event :=
  drop (length (history w)) (history w').

(** The binding an argument gets when its key is assigned only if the
    argument is not None. *)
Definition supplied (v : value) : option value :=
  match v with
  | VNone => None
  | _ => Some v
  end.

(** A server that is up: the transport connects, the session enters and
    shakes hands, every tool call gets a reply, and json.loads refuses a
    text only with a ValueError.  The resource listing and the two
    closes may answer anything. *)
Definition server_up (X : collaborators) (st : streams) : Prop :=
  (∀ url h, sse_client_aenter X url h = Return st)
  ∧ (∀ h, session_aenter X h = Return tt)
  ∧ (∀ h, session_initialize X h = Return tt)
  ∧ (∀ name arguments h, ∃ res, session_call_tool X name arguments h = Return res)
  ∧ (∀ text e, json_loads X text = Raise e → is_ValueError e = true).

(** What an exit logs when closing answers [r]. *)
Definition warning_of (text : string) (r : result unit) : list event :=
  match r with
  | Return _ => []
  | Raise e => [Log WARNING text (Some (ArgExn e))]
  end.

(** The exception an `async with` body leaves with, as __aexit__ gets it. *)
Definition exc_of {A : Type} (r : result A) : option exn :=
  match r with
  | Return _ => None
  | Raise e => Some e
  end.

Module demo.

(** A wrapper as GraphitiMCPClient(transport, url) leaves it. *)
Definition fresh (transport url : string) : world :=
  {| self := {| transport := transport; server_url := url; session := None;
                client := None; client_streams := None |};
     history := [] |}.

(** A wrapper inside its `async with`, over the default URL. *)
Definition connected : world :=
  {| self := {| transport := "sse"; server_url := "http://localhost:8000/sse";
                session := Some (NewClientSession (0%nat, 1%nat));
                client := Some (NewSseClient "http://localhost:8000/sse");
                client_streams := Some (0%nat, 1%nat) |};
     history := [TransportEnter "http://localhost:8000/sse"; SessionEnter] |}.

(** A decoder for three texts; every other text is refused the way
    json.loads refuses it. *)
Definition loads (text : string) : result value :=
  if String.eqb text "[1, 2]" then Return (VList [VInt 1; VInt 2])
  else if String.eqb text "{}" then Return (VDict [])
  else if String.eqb text "null" then Return VNone
  else Raise (Exn JSONDecodeError "Expecting value: line 1 column 1 (char 0)").

(** Collaborators that connect, answer every tool call with [reply],
    every resource listing with [listing] and every close with
    [closing]. *)
Definition scripted (reply : result call_tool_result) (listing : result string)
    (closing : result unit) : collaborators :=
  {| json_loads := loads;
     sse_client_aenter := λ _ _, Return (0%nat, 1%nat);
     session_aenter := λ _, Return tt;
     session_initialize := λ _, Return tt;
     session_list_resources := λ _, listing;
     session_call_tool := λ _ _ _, reply;
     session_aexit := λ _ _, closing;
     client_aexit := λ _ _, closing |}.

Definition refused : exn := Exn (LibraryError "McpError") "Connection closed".

(** Collaborators scripted at every point: the decoder, the connect,
    the session enter, the handshake, the tool reply, the listing and
    the closes. *)
Definition staged (decoder : string → result value) (connect : result streams)
    (enter shake : result unit) (reply : result call_tool_result)
    (listing : result string) (closing : result unit) : collaborators :=
  {| json_loads := decoder;
     sse_client_aenter := λ _ _, connect;
     session_aenter := λ _, enter;
     session_initialize := λ _, shake;
     session_list_resources := λ _, listing;
     session_call_tool := λ _ _ _, reply;
     session_aexit := λ _ _, closing;
     client_aexit := λ _ _, closing |}.

(** A decoder that gives up on every text the way json.loads gives up
    on one nested too deep. *)
Definition too_deep : exn :=
  Exn RecursionError "maximum recursion depth exceeded while decoding a JSON array".

(** The nesting a text opens with: the number of its leading '['. *)
Fixpoint opening_brackets (text : string) : nat :=
  match text with
  | String c rest =>
      if Ascii.eqb c (Ascii.ascii_of_nat 91) then S (opening_brackets rest) else 0%nat
  | EmptyString => 0%nat
  end.

(** sys.getrecursionlimit() as the interpreter starts. *)
Definition recursion_limit : nat := 1000.

(** [loads], but like json.loads it gives up with RecursionError on a
    text that nests deeper than the interpreter recurses. *)
Definition deep_loads (text : string) : result value :=
  if Nat.ltb recursion_limit (opening_brackets text) then Raise too_deep else loads text.

(** '[' * n *)
Fixpoint brackets (n : nat) : string :=
  match n with
  | O => EmptyString
  | S m => String (Ascii.ascii_of_nat 91) (brackets m)
  end.

Definition deep_text : string := brackets (100 * 1000).

(** A server that is up and answers every tool call with the text {}. *)
Definition up : collaborators :=
  scripted (Return (ContentList [TextContent "{}"])) (Return "[]") (Return tt).

(** The world of a handler or a script whose client has just opened
    against [up], from [fresh]. *)
Definition opened : world :=
  {| self := {| transport := "sse"; server_url := "http://localhost:8000/sse";
                session := Some (NewClientSession (0%nat, 1%nat));
                client := Some (NewSseClient "http://localhost:8000/sse");
                client_streams := Some (0%nat, 1%nat) |};
     history := [TransportEnter "http://localhost:8000/sse"; SessionEnter;
                 SessionInitialize;
                 Log INFO "Connected to Graphiti MCP Server" None] |}.

(** A process that has printed nothing, over a world with no history. *)
Definition started : process :=
  {| the_world := fresh "" ""; stdout := [] |}.

Definition close_failed : exn := Exn (LibraryError "ClosedResourceError") "stream closed".

End demo.

(* ===================================================================== *)
(* Properties                                                             *)
(* ===================================================================== *)

Import graphiti_mcp_client.

(** Unfolds the monad and the wrapper's small steps, and nothing of the
    parameter mappings. *)
Ltac run :=
  cbv beta iota delta
    [mbind M_bind mret M_ret try_except raise lift await log get_self set_self
     require_session call_tool extend fst snd self history session client
     transport server_url].

Section wrapper_facts.

Variable X : collaborators.

(** A method invoked under an established session: the one awaited call,
    then either the conversion of its reply or the handler. *)
Lemma invoke_established (op : operation) (w : world) :
  is_Some (session (self w)) →
  invoke X op w =
    match session_call_tool X (tool_name op) (arguments_sent op) (history w) with
    | Return res =>
        match _convert_result_to_dict X res with
        | Return v =>
            (Return v, extend w [CallTool (tool_name op) (arguments_sent op); info_record op])
        | Raise e =>
            (Raise e, extend w [CallTool (tool_name op) (arguments_sent op); info_record op;
                                error_record op e])
        end
    | Raise e =>
        (Raise e, extend w [CallTool (tool_name op) (arguments_sent op); error_record op e])
    end.
Proof.
  destruct w as [[tr url [s|] c cs] h]; intros [s' Hs]; [clear Hs | discriminate].
  destruct op; unfold invoke, add_memory, search_memory_nodes, search_memory_facts,
    delete_entity_edge, delete_episode, get_entity_edge, get_episodes, clear_graph;
    run;
    unfold tool_name, arguments_sent, info_record, error_record;
    (match goal with
     | |- context [session_call_tool X ?n ?a ?h] =>
         destruct (session_call_tool X n a h) as [res|e];
         [destruct (_convert_result_to_dict X res) as [v|e] | ]
     end);
    rewrite <- ?app_assoc; reflexivity.
Qed.

(** Claim C2, amended.  Every remote operation invoked while the wrapper
    holds no session (self.session is None: __aenter__ has not
    established one) raises RuntimeError("Client session not
    initialized") and leaves the world as it was: nothing is sent,
    nothing is logged, call_tool is not invoked.  The guard looks at
    self.session only; whether initialize() was awaited plays no part. *)
Theorem C2_not_initialized_no_network (op : operation) (w : world) :
  session (self w) = None →
  invoke X op w = (Raise (Exn RuntimeError "Client session not initialized"), w).
Proof.
  destruct w as [[tr url [s|] c cs] h]; intros Hs; [discriminate | clear Hs].
  destruct op; reflexivity.
Qed.

(** Claim C5.  Under an established session, when the remote call of an
    operation raises [e], the operation raises that same [e]; the wrapper
    object is unchanged and the history grows by exactly the one call and
    the one ERROR record that interpolates [e]: no second call, no
    fallback value. *)
Theorem C5_failure_logged_and_reraised (op : operation) (w : world) (e : exn) :
  is_Some (session (self w)) →
  session_call_tool X (tool_name op) (arguments_sent op) (history w) = Raise e →
  invoke X op w =
    (Raise e, extend w [CallTool (tool_name op) (arguments_sent op); error_record op e]).
Proof.
  intros Hs Hcall. rewrite invoke_established by exact Hs. rewrite Hcall. reflexivity.
Qed.

(** Claim C3, amended.  Under an established session, when the remote
    call returns the reply [res]: if the first content item carries a
    text that json.loads parses, the operation returns the parsed value;
    if json.loads refuses the text with a ValueError (JSONDecodeError is
    one), it returns {"message": text} with the text as it came; if
    json.loads raises anything else on the text, the operation raises
    that exception; if the reply has no content (no attribute, an empty
    list, a false content) it returns
    {"message": "Operation completed successfully"}. *)
Theorem C3_reply_unwrapped (op : operation) (w : world) (res : call_tool_result) :
  is_Some (session (self w)) →
  session_call_tool X (tool_name op) (arguments_sent op) (history w) = Return res →
  (∀ text rest parsed,
     res = ContentList (TextContent text :: rest) →
     json_loads X text = Return parsed →
     fst (invoke X op w) = Return parsed) ∧
  (∀ text rest e,
     res = ContentList (TextContent text :: rest) →
     json_loads X text = Raise e → is_ValueError e = true →
     fst (invoke X op w) = Return (VDict [("message", VStr text)])) ∧
  (∀ text rest e,
     res = ContentList (TextContent text :: rest) →
     json_loads X text = Raise e → is_ValueError e = false →
     fst (invoke X op w) = Raise e) ∧
  (res = NoContentAttribute ∨ res = ContentList [] ∨ (∃ str_of, res = ContentObject false str_of) →
     fst (invoke X op w)
     = Return (VDict [("message", VStr "Operation completed successfully")])).
Proof.
  intros Hs Hcall. rewrite invoke_established by exact Hs. rewrite Hcall.
  split; [| split; [| split]].
  - intros text rest parsed -> Hparse. unfold _convert_result_to_dict.
    rewrite Hparse. reflexivity.
  - intros text rest e -> Hparse Hclass. unfold _convert_result_to_dict.
    rewrite Hparse, Hclass. reflexivity.
  - intros text rest e -> Hparse Hclass. unfold _convert_result_to_dict.
    rewrite Hparse, Hclass. reflexivity.
  - intros [-> | [-> | [str_of ->]]]; reflexivity.
Qed.

(** Claim C10.  Under an established session, when the first content
    item of the reply carries a text that parses as JSON to a value that
    is no dict (a list, a number, a string, null), the operation returns
    that value itself: its result is not a mapping. *)
Theorem C10_non_mapping_returned (op : operation) (w : world)
    (text : string) (rest : list content_item) (parsed : value) :
  is_Some (session (self w)) →
  session_call_tool X (tool_name op) (arguments_sent op) (history w)
    = Return (ContentList (TextContent text :: rest)) →
  json_loads X text = Return parsed →
  is_dict parsed = false →
  ∃ returned, fst (invoke X op w) = Return returned
              ∧ returned = parsed ∧ is_dict returned = false.
Proof.
  intros Hs Hcall Hparse Hshape. exists parsed.
  rewrite invoke_established by exact Hs. rewrite Hcall.
  unfold _convert_result_to_dict. rewrite Hparse. auto.
Qed.

(** A conditional assignment either leaves the mapping or binds its key. *)
Lemma set_if_not_None_cases (key : string) (v : value) (params : gmap string value) :
  set_if_not_None key v params = params
  ∨ set_if_not_None key v params = <[key := v]> params.
Proof. destruct v; auto. Qed.

(** The mapping of every operation has the required keys of its tool
    and no key outside the listed ones. *)
Lemma arguments_sent_keys (op : operation) :
  ∃ required optional,
    contract_lookup contract (tool_name op) = Some (required, optional)
    ∧ (required ⊆ dom (arguments_sent op))
    ∧ (dom (arguments_sent op) ⊆ required ∪ optional).
Proof.
  destruct op; (eexists _, _; split; [reflexivity |]);
    unfold arguments_sent;
    repeat match goal with
    | |- context [set_if_not_None ?k ?v ?m] =>
        destruct (set_if_not_None_cases k v m) as [-> | ->]
    end;
    rewrite ?dom_insert_L, ?dom_singleton_L, ?dom_empty_L; set_solver.
Qed.

(** Claim C7.  Under an established session an invocation reaches the
    transport exactly once, with one call_tool; the tool name is the
    operation's fixed name, which the contract lists, and the parameter
    mapping has every required key of that tool and no key that the
    contract does not list for it. *)
Theorem C7_one_call_fixed_name (op : operation) (w : world) :
  is_Some (session (self w)) →
  ∃ arguments required optional,
    List.filter is_network (events_since w (snd (invoke X op w)))
      = [CallTool (tool_name op) arguments]
    ∧ contract_lookup contract (tool_name op) = Some (required, optional)
    ∧ (required ⊆ dom arguments)
    ∧ (dom arguments ⊆ required ∪ optional).
Proof.
  intros Hs.
  destruct (arguments_sent_keys op) as (required & optional & Hname & Hreq & Hall).
  exists (arguments_sent op), required, optional.
  split; [| auto].
  rewrite invoke_established by exact Hs. unfold events_since.
  destruct (session_call_tool X _ _ _) as [res|e];
    [destruct (_convert_result_to_dict X res) as [v|e] |];
    cbn [snd extend history]; rewrite drop_app_length;
    destruct op; reflexivity.
Qed.

(** The operations that build their mapping step by step leave an
    optional key out when its argument is None. *)
Lemma optional_keys_left_out :
  (∀ query max_nodes entity,
     let sent := arguments_sent (Search_memory_nodes query VNone max_nodes VNone entity) in
     sent !! "group_ids" = None ∧ sent !! "center_node_uuid" = None)
  ∧ (∀ query max_facts,
     let sent := arguments_sent (Search_memory_facts query VNone max_facts VNone) in
     sent !! "group_ids" = None ∧ sent !! "center_node_uuid" = None)
  ∧ (∀ last_n, arguments_sent (Get_episodes VNone last_n) !! "group_id" = None).
Proof.
  repeat split; reflexivity.
Qed.

(** Claim C1, at add_memory.  Under an established session, add_memory
    called without group_id and without uuid sends a mapping in which
    both keys are present and bound to None. *)
Theorem C1_add_memory_sends_None
    (name episode_body source source_description : value) (w : world) :
  is_Some (session (self w)) →
  ∃ arguments later,
    events_since w
      (snd (add_memory X name episode_body VNone source source_description VNone w))
      = CallTool "add_memory" arguments :: later
    ∧ arguments !! "group_id" = Some VNone
    ∧ arguments !! "uuid" = Some VNone.
Proof.
  intros Hs.
  pose proof (invoke_established
                (Add_memory name episode_body VNone source source_description VNone) w Hs)
    as Hrun.
  cbn [invoke] in Hrun. rewrite Hrun. unfold events_since.
  exists (arguments_sent (Add_memory name episode_body VNone source source_description VNone)).
  destruct (session_call_tool X _ _ _) as [res|e];
    [destruct (_convert_result_to_dict X res) as [v|e] |];
    cbn [snd extend history]; rewrite drop_app_length;
    (eexists; split; [reflexivity | split; reflexivity]).
Qed.

(** Claim C4, amended.  Under an established session get_status returns,
    whatever the resource listing answers: the mapping has status
    "connected"; when the listing raises, the message is the degraded one
    and the failure is logged, not raised. *)
Theorem C4_get_status_established (w : world) :
  is_Some (session (self w)) →
  ∃ message,
    fst (get_status X w)
      = Return (VDict [("status", VStr "connected"); ("message", VStr message)])
    ∧ (∀ listing, session_list_resources X (history w) = Return listing →
         message = "Successfully connected to MCP server")
    ∧ (∀ e, session_list_resources X (history w) = Raise e →
         message = "Connected to MCP server (resource listing failed)"
         ∧ snd (get_status X w)
           = extend w [ListResources;
                       Log ERROR "Error getting server status: " (Some (ArgExn e))]).
Proof.
  destruct w as [[tr url [s|] c cs] h]; intros [s' Hs]; [clear Hs | discriminate].
  unfold get_status; run.
  destruct (session_list_resources X h) as [listing|e] eqn:Hlist.
  - eexists. split; [reflexivity |]. split; [reflexivity | discriminate].
  - eexists. split; [reflexivity |]. split; [discriminate |].
    intros e' [= <-]. rewrite <- app_assoc. split; reflexivity.
Qed.

(** When __aenter__ returns, the transport was "sse" and the wrapper
    holds a transport and a session. *)
Lemma aenter_returned (w w' : world) :
  __aenter__ X w = (Return tt, w') →
  transport (self w) = "sse"
  ∧ is_Some (session (self w')) ∧ is_Some (client (self w')).
Proof.
  destruct w as [[tr url s c cs] h]. cbn [self transport].
  unfold __aenter__; run.
  destruct (String.eqb tr "sse") eqn:Hsse.
  - apply String.eqb_eq in Hsse.
    unfold set_client, set_client_streams, set_session; run.
    destruct (sse_client_aenter X url h) as [st|e]; [| discriminate].
    destruct (session_aenter X _) as [[]|e]; [| discriminate].
    intros [= <-]. split; [exact Hsse |]. split; eexists; reflexivity.
  - destruct (String.eqb tr "stdio"); discriminate.
Qed.

(** Claim C8.  __aenter__ on transport "stdio" raises NotImplementedError
    and on any transport other than "sse" and "stdio" raises
    ValueError("Unsupported transport: ..."), both with the world
    untouched (no connection, no handshake); it returns only for "sse",
    and then with a session established over the streams the transport
    gave. *)
Theorem C8_transport_dispatch (w : world) :
  (transport (self w) = "stdio" →
     __aenter__ X w
       = (Raise (Exn NotImplementedError "Stdio transport not implemented in this example"),
          w))
  ∧ (transport (self w) ≠ "sse" → transport (self w) ≠ "stdio" →
     __aenter__ X w
       = (Raise (Exn ValueError ("Unsupported transport: " +:+ transport (self w))), w))
  ∧ (∀ w', __aenter__ X w = (Return tt, w') →
     transport (self w) = "sse" ∧ is_Some (session (self w')))
  ∧ (transport (self w) = "sse" →
     ∀ st,
       sse_client_aenter X (server_url (self w)) (history w) = Return st →
       session_aenter X (history w ++ [TransportEnter (server_url (self w))])%list
         = Return tt →
       ∃ w', __aenter__ X w = (Return tt, w')
             ∧ session (self w') = Some (NewClientSession st)
             ∧ client (self w') = Some (NewSseClient (server_url (self w)))
             ∧ history w'
               = (history w ++ [TransportEnter (server_url (self w)); SessionEnter])%list).
Proof.
  split; [| split; [| split]].
  - destruct w as [[tr url s c cs] h]. cbn [self transport]. intros ->. reflexivity.
  - destruct w as [[tr url s c cs] h]. cbn [self transport].
    intros Hsse Hstdio. apply String.eqb_neq in Hsse, Hstdio.
    unfold __aenter__; run. rewrite Hsse, Hstdio. reflexivity.
  - intros w' Henter. destruct (aenter_returned w w' Henter) as (Htr & Hsession & _). auto.
  - destruct w as [[tr url s c cs] h]. cbn [self history transport server_url].
    intros -> st Hopen Henter. unfold __aenter__; run. cbn [String.eqb Ascii.eqb Bool.eqb].
    unfold set_client, set_client_streams, set_session; run.
    rewrite Hopen, Henter. eexists. split; [reflexivity |].
    cbn [self history session client]. rewrite <- app_assoc. auto.
Qed.

(** __aexit__ returns, whatever the two closes answer. *)
Lemma aexit_returns (exc : option exn) (w : world) :
  fst (__aexit__ X exc w) = Return tt.
Proof.
  destruct w as [[tr url s c cs] h]. unfold __aexit__; run.
  destruct s as [s|]; destruct c as [c|]; run;
    repeat match goal with
    | |- context [match ?r with Return _ => _ | Raise _ => _ end] => destruct r as [[]|?]
    end; reflexivity.
Qed.

(** __aexit__ of a wrapper that holds a session and a transport: both
    are closed, the session first, and a close that raises leaves a
    WARNING record. *)
Lemma aexit_established (exc : option exn) (w : world) :
  is_Some (session (self w)) → is_Some (client (self w)) →
  let closed_session :=
    (history w ++ SessionExit exc
       :: warning_of "Error closing session: " (session_aexit X exc (history w)))%list in
  __aexit__ X exc w =
    (Return tt,
     {| self := self w;
        history := (closed_session ++ TransportExit exc
          :: warning_of "Error closing client: " (client_aexit X exc closed_session))%list |}).
Proof.
  destruct w as [[tr url [s|] [c|] cs] h]; intros [s' Hs] [c' Hc]; try discriminate.
  clear Hs Hc. unfold __aexit__; run.
  destruct (session_aexit X exc h) as [[]|e1]; cbn [warning_of];
    rewrite <- ?app_assoc; cbn [app];
    match goal with
    | |- context [client_aexit X exc ?h'] => destruct (client_aexit X exc h') as [[]|e2]
    end; cbn [warning_of]; rewrite <- ?app_assoc; reflexivity.
Qed.

(** Once __aenter__ has returned, whatever the body of the
    `async with` does (return or raise) and whatever the two closes
    answer, __aexit__ closes the session and then the transport, a close
    that raises is logged as a WARNING and not propagated, and the
    statement ends as its body did. *)
Theorem release_on_every_body_exit {A : Type} (body : M A)
    (w w1 w2 : world) (r : result A) :
  __aenter__ X w = (Return tt, w1) →
  body w1 = (r, w2) →
  self w2 = self w1 →
  let exc := exc_of r in
  let closed_session :=
    (history w2 ++ SessionExit exc
       :: warning_of "Error closing session: " (session_aexit X exc (history w2)))%list in
  async_with X body w =
    (r, {| self := self w2;
           history := (closed_session ++ TransportExit exc
             :: warning_of "Error closing client: " (client_aexit X exc closed_session))%list |}).
Proof.
  intros Henter Hbody Hself.
  destruct (aenter_returned w w1 Henter) as (_ & Hsession & Hclient).
  rewrite <- Hself in Hsession, Hclient.
  unfold async_with. rewrite Henter, Hbody.
  destruct r as [a|e]; cbn [exc_of];
    rewrite (aexit_established _ w2 Hsession Hclient); reflexivity.
Qed.

(** The `async with` is entered only when __aenter__ returns.  When the
    transport opens and session.__aenter__() then raises, the statement
    raises that failure without running __aexit__: the history ends with
    the two enters. *)
Remark aenter_failure_skips_aexit {A : Type} (body : M A) (w : world)
    (st : streams) (e : exn) :
  transport (self w) = "sse" →
  sse_client_aenter X (server_url (self w)) (history w) = Return st →
  session_aenter X (history w ++ [TransportEnter (server_url (self w))])%list = Raise e →
  fst (async_with X body w) = Raise e
  ∧ history (snd (async_with X body w))
    = (history w ++ [TransportEnter (server_url (self w)); SessionEnter])%list.
Proof.
  destruct w as [[tr url s c cs] h]. cbn [self history transport server_url].
  intros -> Hopen Henter. unfold async_with, __aenter__; run.
  cbn [String.eqb Ascii.eqb Bool.eqb].
  unfold set_client, set_client_streams, set_session; run.
  rewrite Hopen, Henter. cbn [fst snd history]. rewrite <- app_assoc. auto.
Qed.

End wrapper_facts.

Lemma C2_not_initialized_witness :
  invoke (demo.scripted (Return NoContentAttribute) (Return "[]") (Return tt))
    (Get_episodes VNone (VInt 10)) (demo.fresh "sse" "http://localhost:8000/sse")
  = (Raise (Exn RuntimeError "Client session not initialized"),
     demo.fresh "sse" "http://localhost:8000/sse").
Proof.
  apply (C2_not_initialized_no_network
           (demo.scripted (Return NoContentAttribute) (Return "[]") (Return tt))
           (Get_episodes VNone (VInt 10)) (demo.fresh "sse" "http://localhost:8000/sse")).
  reflexivity.
Defined.

Lemma C5_failure_witness :
  invoke (demo.scripted (Raise demo.refused) (Return "[]") (Return tt))
    (Delete_entity_edge (VStr "e-17")) demo.connected
  = (Raise demo.refused,
     extend demo.connected
       [CallTool "delete_entity_edge" {[ "uuid" := VStr "e-17" ]};
        Log ERROR "Error deleting entity edge: " (Some (ArgExn demo.refused))]).
Proof.
  apply (C5_failure_logged_and_reraised
           (demo.scripted (Raise demo.refused) (Return "[]") (Return tt))
           (Delete_entity_edge (VStr "e-17")) demo.connected demo.refused).
  - exists (NewClientSession (0%nat, 1%nat)). reflexivity.
  - reflexivity.
Defined.

(* --------------------------------------------------------------------- *)
(* The routes                                                             *)
(* --------------------------------------------------------------------- *)

(** C2 as stated fails between __aenter__ and initialize(): inside an
    `async with` whose body invokes an operation without having awaited
    initialize(), the operation passes the guard and calls the tool; the
    failure it ends with is the server's, not "not initialized". *)
Lemma C2_call_before_initialize :
  async_with (demo.scripted (Raise demo.refused) (Return "[]") (Return tt))
    (invoke (demo.scripted (Raise demo.refused) (Return "[]") (Return tt)) Clear_graph)
    (demo.fresh "sse" "http://localhost:8000/sse")
  = (Raise demo.refused,
     extend demo.connected
       [CallTool "clear_graph" ∅;
        Log ERROR "Error clearing graph: " (Some (ArgExn demo.refused));
        SessionExit (Some demo.refused); TransportExit (Some demo.refused)]).
Proof. reflexivity. Qed.

(** C3 as stated fails on a text that json.loads gives up on with a
    RecursionError: the text '[' * 100000 does not parse, and the
    operation raises instead of returning {"message": text}. *)
Lemma C3_deep_text_raises :
  json_loads
    (demo.staged demo.deep_loads (Return (0%nat, 1%nat)) (Return tt) (Return tt)
       (Return (ContentList [TextContent demo.deep_text])) (Return "[]") (Return tt))
    demo.deep_text
  = Raise demo.too_deep
  ∧ fst (invoke
           (demo.staged demo.deep_loads (Return (0%nat, 1%nat)) (Return tt) (Return tt)
              (Return (ContentList [TextContent demo.deep_text])) (Return "[]") (Return tt))
           Clear_graph demo.connected)
    = Raise demo.too_deep.
Proof. split; vm_compute; reflexivity. Qed.

(** Claim C9, at a failing __aenter__.  When the transport opens and
    session.__aenter__() then raises, the `async with` raises that
    failure without running its body or __aexit__: the wrapper is left
    holding the entered transport, and the history ends with the two
    enters, with no close of the transport. *)
Theorem C9_transport_left_open {A : Type} (X : collaborators) (body : M A) (w : world)
    (st : streams) (e : exn) :
  transport (self w) = "sse" →
  sse_client_aenter X (server_url (self w)) (history w) = Return st →
  session_aenter X (history w ++ [TransportEnter (server_url (self w))])%list = Raise e →
  async_with X body w
  = (Raise e,
     {| self := {| transport := "sse"; server_url := server_url (self w);
                   session := Some (NewClientSession st);
                   client := Some (NewSseClient (server_url (self w)));
                   client_streams := Some st |};
        history := history w ++ [TransportEnter (server_url (self w)); SessionEnter] |}).
Proof.
  destruct w as [[tr url s c cs] h]. cbn [self history transport server_url].
  intros -> Hopen Henter. unfold async_with, __aenter__; run.
  cbn [String.eqb Ascii.eqb Bool.eqb].
  unfold set_client, set_client_streams, set_session; run.
  rewrite Hopen, Henter. rewrite <- app_assoc. reflexivity.
Qed.

Lemma C9_transport_left_open_witness :
  async_with
    (demo.staged demo.loads (Return (0%nat, 1%nat)) (Raise demo.refused) (Return tt)
       (Return NoContentAttribute) (Return "[]") (Return tt))
    (invoke demo.up Clear_graph) (demo.fresh "sse" "http://localhost:8000/sse")
  = (Raise demo.refused,
     {| self := {| transport := "sse"; server_url := "http://localhost:8000/sse";
                   session := Some (NewClientSession (0%nat, 1%nat));
                   client := Some (NewSseClient "http://localhost:8000/sse");
                   client_streams := Some (0%nat, 1%nat) |};
        history := [TransportEnter "http://localhost:8000/sse"; SessionEnter] |}).
Proof.
  apply (C9_transport_left_open
           (demo.staged demo.loads (Return (0%nat, 1%nat)) (Raise demo.refused) (Return tt)
              (Return NoContentAttribute) (Return "[]") (Return tt))
           (invoke demo.up Clear_graph) (demo.fresh "sse" "http://localhost:8000/sse")
           (0%nat, 1%nat) demo.refused).
  - reflexivity.
  - reflexivity.
  - reflexivity.
Defined.

(** C4 as stated fails before a session is established: get_status on a
    wrapper that was constructed and never entered raises
    RuntimeError("Client session not initialized"). *)
Lemma C4_get_status_raises_before_session :
  get_status (demo.scripted (Return NoContentAttribute) (Return "[]") (Return tt))
    (demo.fresh "sse" "http://localhost:8000/sse")
  = (Raise (Exn RuntimeError "Client session not initialized"),
     demo.fresh "sse" "http://localhost:8000/sse").
Proof. reflexivity. Qed.

Lemma C4_get_status_witness :
  ∃ message,
    fst (get_status (demo.scripted (Return NoContentAttribute) (Raise demo.refused) (Return tt))
           demo.connected)
      = Return (VDict [("status", VStr "connected"); ("message", VStr message)])
    ∧ message = "Connected to MCP server (resource listing failed)".
Proof.
  destruct (C4_get_status_established
              (demo.scripted (Return NoContentAttribute) (Raise demo.refused) (Return tt))
              demo.connected)
    as (message & Hreturned & _ & Hdegraded).
  - exists (NewClientSession (0%nat, 1%nat)). reflexivity.
  - exists message. split; [exact Hreturned |].
    exact (proj1 (Hdegraded demo.refused eq_refl)).
Defined.

Lemma C3_reply_witness :
  fst (invoke (demo.scripted (Return (ContentList [TextContent "[1, 2]"])) (Return "[]") (Return tt))
         Clear_graph demo.connected)
    = Return (VList [VInt 1; VInt 2])
  ∧ fst (invoke (demo.scripted (Return (ContentList [TextContent "Graph cleared"]))
                   (Return "[]") (Return tt))
           Clear_graph demo.connected)
    = Return (VDict [("message", VStr "Graph cleared")])
  ∧ fst (invoke (demo.scripted (Return (ContentList [])) (Return "[]") (Return tt))
           Clear_graph demo.connected)
    = Return (VDict [("message", VStr "Operation completed successfully")]).
Proof.
  split; [| split].
  - refine (proj1 (C3_reply_unwrapped
                     (demo.scripted (Return (ContentList [TextContent "[1, 2]"]))
                        (Return "[]") (Return tt))
                     Clear_graph demo.connected (ContentList [TextContent "[1, 2]"]) _ _)
              "[1, 2]" [] (VList [VInt 1; VInt 2]) _ _);
      [exists (NewClientSession (0%nat, 1%nat)) | | |]; reflexivity.
  - refine (proj1 (proj2 (C3_reply_unwrapped
                     (demo.scripted (Return (ContentList [TextContent "Graph cleared"]))
                        (Return "[]") (Return tt))
                     Clear_graph demo.connected (ContentList [TextContent "Graph cleared"]) _ _))
              "Graph cleared" []
              (Exn JSONDecodeError "Expecting value: line 1 column 1 (char 0)") _ _ _);
      [exists (NewClientSession (0%nat, 1%nat)) | | | |]; reflexivity.
  - refine (proj2 (proj2 (proj2 (C3_reply_unwrapped
                     (demo.scripted (Return (ContentList [])) (Return "[]") (Return tt))
                     Clear_graph demo.connected (ContentList []) _ _))) _);
      [exists (NewClientSession (0%nat, 1%nat)); reflexivity | reflexivity |].
    right. left. reflexivity.
Defined.

Lemma C10_non_mapping_witness :
  ∃ returned,
    fst (invoke (demo.scripted (Return (ContentList [TextContent "[1, 2]"]))
                   (Return "[]") (Return tt))
           (Search_memory_facts (VStr "example") VNone (VInt 5) VNone) demo.connected)
      = Return returned
    ∧ returned = VList [VInt 1; VInt 2] ∧ is_dict returned = false.
Proof.
  apply (C10_non_mapping_returned
           (demo.scripted (Return (ContentList [TextContent "[1, 2]"])) (Return "[]") (Return tt))
           (Search_memory_facts (VStr "example") VNone (VInt 5) VNone) demo.connected
           "[1, 2]" [] (VList [VInt 1; VInt 2])).
  - exists (NewClientSession (0%nat, 1%nat)). reflexivity.
  - reflexivity.
  - reflexivity.
  - reflexivity.
Defined.

Lemma C7_one_call_witness :
  ∃ arguments required optional,
    List.filter is_network
      (events_since demo.connected
         (snd (invoke (demo.scripted (Return NoContentAttribute) (Return "[]") (Return tt))
                 (Get_episodes VNone (VInt 1)) demo.connected)))
      = [CallTool "get_episodes" arguments]
    ∧ contract_lookup contract "get_episodes" = Some (required, optional)
    ∧ (required ⊆ dom arguments)
    ∧ (dom arguments ⊆ required ∪ optional).
Proof.
  apply (C7_one_call_fixed_name
           (demo.scripted (Return NoContentAttribute) (Return "[]") (Return tt))
           (Get_episodes VNone (VInt 1)) demo.connected).
  exists (NewClientSession (0%nat, 1%nat)). reflexivity.
Defined.

Lemma C1_add_memory_witness :
  ∃ arguments later,
    events_since demo.connected
      (snd (add_memory (demo.scripted (Return NoContentAttribute) (Return "[]") (Return tt))
              (VStr "Example Note")
              (VStr "This is an example note added through the MCP client.")
              VNone (VStr "text") (VStr "example") VNone demo.connected))
      = CallTool "add_memory" arguments :: later
    ∧ arguments !! "group_id" = Some VNone
    ∧ arguments !! "uuid" = Some VNone.
Proof.
  apply (C1_add_memory_sends_None
           (demo.scripted (Return NoContentAttribute) (Return "[]") (Return tt))
           (VStr "Example Note")
           (VStr "This is an example note added through the MCP client.")
           (VStr "text") (VStr "example") demo.connected).
  exists (NewClientSession (0%nat, 1%nat)). reflexivity.
Defined.

Lemma C8_transport_witness :
  __aenter__ (demo.scripted (Return NoContentAttribute) (Return "[]") (Return tt))
    (demo.fresh "stdio" "http://localhost:8000/sse")
  = (Raise (Exn NotImplementedError "Stdio transport not implemented in this example"),
     demo.fresh "stdio" "http://localhost:8000/sse")
  ∧ __aenter__ (demo.scripted (Return NoContentAttribute) (Return "[]") (Return tt))
      (demo.fresh "websocket" "http://localhost:8000/sse")
    = (Raise (Exn ValueError "Unsupported transport: websocket"),
       demo.fresh "websocket" "http://localhost:8000/sse").
Proof.
  split.
  - apply (proj1 (C8_transport_dispatch
                    (demo.scripted (Return NoContentAttribute) (Return "[]") (Return tt))
                    (demo.fresh "stdio" "http://localhost:8000/sse"))).
    reflexivity.
  - apply (proj1 (proj2 (C8_transport_dispatch
                    (demo.scripted (Return NoContentAttribute) (Return "[]") (Return tt))
                    (demo.fresh "websocket" "http://localhost:8000/sse"))));
      discriminate.
Defined.

Lemma release_on_every_body_exit_witness :
  async_with (demo.scripted (Raise demo.refused) (Return "[]") (Raise demo.close_failed))
    (invoke (demo.scripted (Raise demo.refused) (Return "[]") (Raise demo.close_failed))
       Clear_graph)
    (demo.fresh "sse" "http://localhost:8000/sse")
  = (Raise demo.refused,
     extend demo.connected
       [CallTool "clear_graph" ∅;
        Log ERROR "Error clearing graph: " (Some (ArgExn demo.refused));
        SessionExit (Some demo.refused);
        Log WARNING "Error closing session: " (Some (ArgExn demo.close_failed));
        TransportExit (Some demo.refused);
        Log WARNING "Error closing client: " (Some (ArgExn demo.close_failed))]).
Proof.
  exact (release_on_every_body_exit
           (demo.scripted (Raise demo.refused) (Return "[]") (Raise demo.close_failed))
           (invoke (demo.scripted (Raise demo.refused) (Return "[]") (Raise demo.close_failed))
              Clear_graph)
           (demo.fresh "sse" "http://localhost:8000/sse")
           demo.connected
           (extend demo.connected
              [CallTool "clear_graph" ∅;
               Log ERROR "Error clearing graph: " (Some (ArgExn demo.refused))])
           (Raise demo.refused)
           eq_refl eq_refl eq_refl).
Defined.

Section route_facts.

Variable X : collaborators.
Variable MCP_SERVER_URL : string.
Variable MCP_TRANSPORT : string.

Local Abbreviation with_client := (app.with_client X MCP_SERVER_URL MCP_TRANSPORT).
Local Abbreviation post := (app.post X MCP_SERVER_URL MCP_TRANSPORT).
Local Abbreviation open_client := (app.open_client X MCP_SERVER_URL MCP_TRANSPORT).

(** A handler on a body that decodes to a dict. *)
Lemma post_decoded (route : app.api_route) (req : request)
    (entries : list (string * value)) (w : world) :
  get_json req = Return (VDict entries) →
  post route req w
  = try_except
      (with_client (res ← invoke X (app.route_operation route entries);
                    mret (app.jsonify res)))
      (λ e, mret (app.error_response e)) w.
Proof.
  destruct req as [[data|e]]; cbn [get_json]; intros [= ->].
  destruct route; reflexivity.
Qed.

(** Once the client is open, the `async with` runs the body and then
    __aexit__, and ends as the body did. *)
Lemma with_client_entered {A : Type} (body : M A) (w w1 : world) :
  open_client w = (Return tt, w1) →
  with_client body w
  = (fst (body w1), snd (__aexit__ X (exc_of (fst (body w1))) (snd (body w1)))).
Proof.
  unfold app.open_client, app.with_client, async_with.
  cbv beta iota delta [mbind M_bind __init__].
  destruct (__aenter__ X _) as [[[]|e] w0]; [| discriminate].
  destruct (initialize X w0) as [[[]|e] w0']; [| discriminate].
  intros [= <-]. destruct (body w0') as [[a|e] w2]; cbn [fst snd exc_of].
  - pose proof (aexit_returns X None w2) as Hexit.
    destruct (__aexit__ X None w2) as [[[]|e] w3]; [reflexivity | discriminate].
  - pose proof (aexit_returns X (Some e) w2) as Hexit.
    destruct (__aexit__ X (Some e) w2) as [[[]|e'] w3]; [reflexivity | discriminate].
Qed.

(** When the client fails to open, the `async with` raises that failure. *)
Lemma with_client_not_entered {A : Type} (body : M A) (w w1 : world) (e : exn) :
  open_client w = (Raise e, w1) →
  fst (with_client body w) = Raise e.
Proof.
  unfold app.open_client, app.with_client, async_with.
  cbv beta iota delta [mbind M_bind __init__].
  destruct (__aenter__ X _) as [[[]|e0] w0]; [| intros [= <-]; reflexivity].
  destruct (initialize X w0) as [[[]|e0] w0']; [discriminate |].
  intros [= <- <-].
  pose proof (aexit_returns X (Some e0) w0') as Hexit.
  destruct (__aexit__ X (Some e0) w0') as [[[]|e'] w3]; [reflexivity | discriminate].
Qed.

(** What a `with` block that ends in jsonify can return. *)
Lemma with_client_returns_200 (m : M value) (w : world) (resp : response) :
  fst (with_client (res ← m; mret (app.jsonify res)) w) = Return resp →
  status resp = 200.
Proof.
  unfold app.with_client, async_with.
  cbv beta iota delta [mbind M_bind mret M_ret __init__].
  destruct (__aenter__ X _) as [[[]|e] w0]; [| discriminate].
  destruct (initialize X w0) as [[[]|e] w0'].
  - destruct (m w0') as [[v|e] w2].
    + destruct (__aexit__ X None w2) as [[[]|e] w3]; [| discriminate].
      intros [= <-]. reflexivity.
    + destruct (__aexit__ X (Some e) w2) as [[[]|e'] w3]; discriminate.
  - destruct (__aexit__ X (Some e) w0') as [[[]|e'] w3]; discriminate.
Qed.

(** Claim C6.  A POST to one of the four API routes always answers and
    never raises: the answer has status 200, or it is {"error": str(e)}
    with status 500 for a failure [e].  When the body decodes to a dict,
    the client opens and the operation returns [v], the answer is [v]
    with status 200; when the operation raises [e], when the client
    fails to open with [e], or when request.get_json() raises [e], the
    answer is {"error": str(e)} with status 500.  A field missing from
    the body takes its default; max_nodes takes 10. *)
Theorem C6_route_responses (route : app.api_route) (req : request) (w : world) :
  (∃ resp, fst (post route req w) = Return resp
           ∧ (status resp = 200 ∨ ∃ e, resp = app.error_response e))
  ∧ (∀ entries w1 v w2,
       get_json req = Return (VDict entries) →
       open_client w = (Return tt, w1) →
       invoke X (app.route_operation route entries) w1 = (Return v, w2) →
       fst (post route req w) = Return {| body := v; status := 200 |})
  ∧ (∀ entries w1 e w2,
       get_json req = Return (VDict entries) →
       open_client w = (Return tt, w1) →
       invoke X (app.route_operation route entries) w1 = (Raise e, w2) →
       fst (post route req w)
         = Return {| body := VDict [("error", VStr (exn_str e))]; status := 500 |})
  ∧ (∀ entries w1 e,
       get_json req = Return (VDict entries) →
       open_client w = (Raise e, w1) →
       fst (post route req w)
         = Return {| body := VDict [("error", VStr (exn_str e))]; status := 500 |})
  ∧ (∀ e,
       get_json req = Raise e →
       post route req w
         = (Return {| body := VDict [("error", VStr (exn_str e))]; status := 500 |}, w))
  ∧ (∀ entries,
       alist_get entries "max_nodes" = None →
       ∃ query group_ids center_node_uuid entity,
         app.route_operation app.api_search_nodes entries
           = Search_memory_nodes query group_ids (VInt 10) center_node_uuid entity).
Proof.
  split; [| split; [| split; [| split; [| split]]]].
  - destruct (get_json req) as [data|e] eqn:Hjson.
    + destruct data as [| b | n | f | t | items | entries];
        try (destruct req as [r]; cbn [get_json] in Hjson; subst r;
             destruct route; (eexists; split; [reflexivity | right; eexists; reflexivity])).
      rewrite (post_decoded route req entries w Hjson). unfold try_except.
      match goal with
      | |- context [app.with_client ?x ?u ?t ?b w] =>
          destruct (app.with_client x u t b w) as [[resp|e] w'] eqn:Hrun
      end.
      * exists resp. split; [reflexivity |]. left.
        eapply with_client_returns_200. rewrite Hrun. reflexivity.
      * eexists. split; [reflexivity |]. right. eexists. reflexivity.
    + destruct req as [r]; cbn [get_json] in Hjson; subst r.
      destruct route; (eexists; split; [reflexivity | right; eexists; reflexivity]).
  - intros entries w1 v w2 Hjson Hopen Hop.
    rewrite (post_decoded route req entries w Hjson). unfold try_except.
    rewrite (with_client_entered _ w w1 Hopen).
    cbv beta iota delta [mbind M_bind mret M_ret]. rewrite Hop. reflexivity.
  - intros entries w1 e w2 Hjson Hopen Hop.
    rewrite (post_decoded route req entries w Hjson). unfold try_except.
    rewrite (with_client_entered _ w w1 Hopen).
    cbv beta iota delta [mbind M_bind mret M_ret]. rewrite Hop. reflexivity.
  - intros entries w1 e Hjson Hopen.
    rewrite (post_decoded route req entries w Hjson). unfold try_except.
    pose proof (with_client_not_entered
                  (res ← invoke X (app.route_operation route entries);
                   mret (app.jsonify res)) w w1 e Hopen) as Hrun.
    destruct (app.with_client _ _ _ _ w) as [[resp|e'] w'];
      cbn [fst] in Hrun; [discriminate |].
    injection Hrun as ->. reflexivity.
  - intros e Hjson. destruct req as [r]; cbn [get_json] in Hjson; subst r.
    destruct route; reflexivity.
  - intros entries Hmissing. unfold app.route_operation. rewrite Hmissing.
    eexists _, _, _, _. reflexivity.
Qed.

End route_facts.

Lemma C6_route_witness :
  fst (app.post (demo.scripted (Return (ContentList [TextContent "{}"])) (Return "[]") (Return tt))
         "http://localhost:8000/sse" "sse" app.api_search_nodes
         {| get_json := Return (VDict [("query", VStr "example"); ("max_nodes", VInt 5)]) |}
         (demo.fresh "" ""))
    = Return {| body := VDict []; status := 200 |}
  ∧ fst (app.post (demo.scripted (Raise demo.refused) (Return "[]") (Return tt))
           "http://localhost:8000/sse" "sse" app.api_search_nodes
           {| get_json := Return (VDict [("query", VStr "example"); ("max_nodes", VInt 5)]) |}
           (demo.fresh "" ""))
    = Return {| body := VDict [("error", VStr "Connection closed")]; status := 500 |}.
Proof.
  split.
  - eapply (proj1 (proj2 (C6_route_responses
              (demo.scripted (Return (ContentList [TextContent "{}"])) (Return "[]") (Return tt))
              "http://localhost:8000/sse" "sse" app.api_search_nodes
              {| get_json := Return (VDict [("query", VStr "example"); ("max_nodes", VInt 5)]) |}
              (demo.fresh "" "")))); reflexivity.
  - eapply (proj1 (proj2 (proj2 (C6_route_responses
              (demo.scripted (Raise demo.refused) (Return "[]") (Return tt))
              "http://localhost:8000/sse" "sse" app.api_search_nodes
              {| get_json := Return (VDict [("query", VStr "example"); ("max_nodes", VInt 5)]) |}
              (demo.fresh "" ""))))
              [("query", VStr "example"); ("max_nodes", VInt 5)] _ demo.refused);
      reflexivity.
Defined.

(* ===================================================================== *)
(* More of the wrapper                                                    *)
(* ===================================================================== *)

(** Brings the events a step added into view: [events_since w] of a
    world whose history is [history w] followed by more. *)
Ltac since :=
  unfold events_since; cbn [snd fst extend history self];
  rewrite <- ?app_assoc; cbn [app]; rewrite ?drop_app_length.

Section wrapper_more.

Variable X : collaborators.

(** initialize() has the session guard of the operations but no handler:
    without a session it raises and does nothing; with one it awaits the
    handshake once and logs the connection; a handshake that raises is
    re-raised as it is, with no log record. *)
Theorem initialize_handshake (w : world) :
  (session (self w) = None → initialize X w = (Raise not_initialized, w))
  ∧ (is_Some (session (self w)) →
     (session_initialize X (history w) = Return tt →
      initialize X w
        = (Return tt,
           extend w [SessionInitialize; Log INFO "Connected to Graphiti MCP Server" None]))
     ∧ (∀ e, session_initialize X (history w) = Raise e →
        initialize X w = (Raise e, extend w [SessionInitialize]))).
Proof.
  destruct w as [[tr url [s|] c cs] h]; cbn [self session history]; split.
  - discriminate.
  - intros _. unfold initialize; run. split.
    + intros ->. rewrite <- app_assoc. reflexivity.
    + intros e ->. reflexivity.
  - intros _. reflexivity.
  - intros [s Hs]. discriminate.
Qed.

(** What the conversion can return: the value json.loads parsed from the
    first text item, or a mapping with the single key "message".  It
    raises only what json.loads raises outside ValueError. *)
Theorem convert_result_shape (res : call_tool_result) :
  match _convert_result_to_dict X res with
  | Return v =>
      (∃ text rest, res = ContentList (TextContent text :: rest)
                    ∧ json_loads X text = Return v)
      ∨ (∃ message, v = VDict [("message", VStr message)])
  | Raise e =>
      ∃ text rest, res = ContentList (TextContent text :: rest)
                   ∧ json_loads X text = Raise e ∧ is_ValueError e = false
  end.
Proof.
  destruct res as [| [| [text | str_of] rest] | [|] str_of]; cbn [_convert_result_to_dict];
    try (right; eexists; reflexivity).
  destruct (json_loads X text) as [v|e] eqn:Hparse.
  - left. eauto.
  - destruct (is_ValueError e) eqn:Hclass.
    + right. eexists. reflexivity.
    + eauto.
Qed.

(** A reply whose text json.loads refuses with something that is no
    ValueError: the operation has already logged its success, the
    handler then logs the failure and the operation raises it; the call
    is not repeated. *)
Theorem conversion_failure_reraised (op : operation) (w : world)
    (text : string) (rest : list content_item) (e : exn) :
  is_Some (session (self w)) →
  session_call_tool X (tool_name op) (arguments_sent op) (history w)
    = Return (ContentList (TextContent text :: rest)) →
  json_loads X text = Raise e →
  is_ValueError e = false →
  invoke X op w
  = (Raise e,
     extend w [CallTool (tool_name op) (arguments_sent op); info_record op;
               error_record op e]).
Proof.
  intros Hs Hcall Hparse Hclass. rewrite invoke_established by exact Hs.
  rewrite Hcall. cbn [_convert_result_to_dict]. rewrite Hparse, Hclass. reflexivity.
Qed.

(** Without a session an operation stops at its guard. *)
Lemma invoke_guard (op : operation) (w : world) :
  session (self w) = None → invoke X op w = (Raise not_initialized, w).
Proof.
  destruct w as [[tr url [s|] c cs] h]; intros Hs; [discriminate |].
  destruct op; reflexivity.
Qed.

(** In every state, with or without a session, an operation leaves the
    wrapper's attributes as they are, only appends to the history, and
    reaches the transport at most once. *)
Theorem invoke_frame (op : operation) (w : world) :
  ∃ evs, snd (invoke X op w) = extend w evs
         ∧ (length (List.filter is_network evs) ≤ 1)%nat.
Proof.
  destruct (session (self w)) as [s|] eqn:Hs.
  - rewrite invoke_established by (rewrite Hs; eauto).
    destruct (session_call_tool X _ _ _) as [res|e];
      [destruct (_convert_result_to_dict X res) as [v|e] |];
      (eexists; split; [reflexivity |]); destruct op; cbn; lia.
  - rewrite invoke_guard by exact Hs. exists [].
    split; [| cbn; lia].
    destruct w as [me h]. unfold extend. cbn [self history]. rewrite app_nil_r. reflexivity.
Qed.

(** Under an established session the mapping an operation sends binds
    every required key to the argument given, unchanged; in the three
    methods that build the mapping step by step an optional key is bound
    exactly when its argument is not None, and then to that argument. *)
Theorem arguments_reach_the_mapping (op : operation) (w : world) :
  is_Some (session (self w)) →
  ∃ later,
    events_since w (snd (invoke X op w))
      = CallTool (tool_name op) (arguments_sent op) :: later
    ∧ match op with
      | Add_memory name episode_body group_id source source_description uuid =>
          arguments_sent op !! "name" = Some name
          ∧ arguments_sent op !! "episode_body" = Some episode_body
          ∧ arguments_sent op !! "group_id" = Some group_id
          ∧ arguments_sent op !! "source" = Some source
          ∧ arguments_sent op !! "source_description" = Some source_description
          ∧ arguments_sent op !! "uuid" = Some uuid
      | Search_memory_nodes query group_ids max_nodes center_node_uuid entity =>
          arguments_sent op !! "query" = Some query
          ∧ arguments_sent op !! "max_nodes" = Some max_nodes
          ∧ arguments_sent op !! "entity" = Some entity
          ∧ arguments_sent op !! "group_ids" = supplied group_ids
          ∧ arguments_sent op !! "center_node_uuid" = supplied center_node_uuid
      | Search_memory_facts query group_ids max_facts center_node_uuid =>
          arguments_sent op !! "query" = Some query
          ∧ arguments_sent op !! "max_facts" = Some max_facts
          ∧ arguments_sent op !! "group_ids" = supplied group_ids
          ∧ arguments_sent op !! "center_node_uuid" = supplied center_node_uuid
      | Delete_entity_edge uuid | Delete_episode uuid | Get_entity_edge uuid =>
          arguments_sent op = {[ "uuid" := uuid ]}
      | Get_episodes group_id last_n =>
          arguments_sent op !! "last_n" = Some last_n
          ∧ arguments_sent op !! "group_id" = supplied group_id
      | Clear_graph => arguments_sent op = ∅
      end.
Proof.
  intros Hs. rewrite invoke_established by exact Hs.
  assert (∃ later,
            events_since w
              (snd match session_call_tool X (tool_name op) (arguments_sent op) (history w) with
                   | Return res =>
                       match _convert_result_to_dict X res with
                       | Return v =>
                           (Return v,
                            extend w [CallTool (tool_name op) (arguments_sent op);
                                      info_record op])
                       | Raise e =>
                           (Raise e,
                            extend w [CallTool (tool_name op) (arguments_sent op);
                                      info_record op; error_record op e])
                       end
                   | Raise e =>
                       (Raise e,
                        extend w [CallTool (tool_name op) (arguments_sent op);
                                  error_record op e])
                   end)
            = CallTool (tool_name op) (arguments_sent op) :: later) as [later Hlater].
  { destruct (session_call_tool X _ _ _) as [res|e];
      [destruct (_convert_result_to_dict X res) as [v|e] |];
      since; eexists; reflexivity. }
  exists later. split; [exact Hlater |]. clear Hlater.
  destruct op as [name episode_body group_id source source_description uuid
                 | query group_ids max_nodes center_node_uuid entity
                 | query group_ids max_facts center_node_uuid
                 | uuid | uuid | uuid | group_id last_n | ];
    cbn [arguments_sent];
    try destruct group_ids; try destruct center_node_uuid; try destruct group_id;
    cbn [set_if_not_None supplied]; repeat split; reflexivity.
Qed.

(** Under an established session get_status reaches the transport once,
    with the resource listing, whatever that answers; it calls no tool
    and leaves the wrapper's attributes as they are. *)
Theorem get_status_lists_once (w : world) :
  is_Some (session (self w)) →
  ∃ evs, snd (get_status X w) = extend w evs
         ∧ List.filter is_network evs = [ListResources].
Proof.
  destruct w as [[tr url [s|] c cs] h]; intros [s' Hs]; [clear Hs | discriminate].
  unfold get_status; run.
  destruct (session_list_resources X h) as [listing|e];
    rewrite <- app_assoc; eexists; split; reflexivity.
Qed.

(** __aexit__ returns and keeps the wrapper's attributes. *)
Lemma aexit_keeps_self (exc : option exn) (w : world) :
  fst (__aexit__ X exc w) = Return tt ∧ self (snd (__aexit__ X exc w)) = self w.
Proof.
  destruct w as [[tr url s c cs] h]. unfold __aexit__; run.
  destruct s as [s|]; destruct c as [c|]; run;
    repeat match goal with
    | |- context [match ?r with Return _ => _ | Raise _ => _ end] => destruct r as [[]|?]
    end; auto.
Qed.

(** __aexit__ in any state: it returns, keeps the wrapper's attributes
    (the session is not reset), and closes what the wrapper holds and
    nothing else: the session if there is one, then the transport if
    there is one. *)
Theorem aexit_closes_what_is_held (exc : option exn) (w : world) :
  fst (__aexit__ X exc w) = Return tt
  ∧ self (snd (__aexit__ X exc w)) = self w
  ∧ List.filter is_network (events_since w (snd (__aexit__ X exc w)))
    = (match session (self w) with Some _ => [SessionExit exc] | None => [] end
       ++ match client (self w) with Some _ => [TransportExit exc] | None => [] end)%list.
Proof.
  destruct w as [[tr url s c cs] h]. unfold __aexit__; run.
  destruct s as [s|]; destruct c as [c|]; run;
    repeat match goal with
    | |- context [match ?r with Return _ => _ | Raise _ => _ end] => destruct r as [[]|?]
    end; since; rewrite ?drop_all; auto.
Qed.

(** On a transport that is not "sse" the body of an `async with` is not
    run and no call is made: the statement raises out of __aenter__ with
    the world as it was. *)
Theorem async_with_refused_transport {A : Type} (body : M A) (w : world) :
  transport (self w) ≠ "sse" →
  ∃ e, async_with X body w = (Raise e, w)
       ∧ exn_class_of e
         = (if String.eqb (transport (self w)) "stdio"
            then NotImplementedError else ValueError).
Proof.
  destruct w as [[tr url s c cs] h]. cbn [self transport].
  intros Hsse. apply String.eqb_neq in Hsse.
  unfold async_with, __aenter__; run. rewrite Hsse.
  destruct (String.eqb tr "stdio"); eexists; split; reflexivity.
Qed.

(** When the SSE transport fails to connect, the statement raises that
    failure: the body is not run, no session is created or entered, and
    nothing is closed. *)
Theorem async_with_connect_failure {A : Type} (body : M A) (w : world) (e : exn) :
  transport (self w) = "sse" →
  sse_client_aenter X (server_url (self w)) (history w) = Raise e →
  fst (async_with X body w) = Raise e
  ∧ history (snd (async_with X body w))
    = (history w ++ [TransportEnter (server_url (self w))])%list
  ∧ session (self (snd (async_with X body w))) = session (self w).
Proof.
  destruct w as [[tr url s c cs] h]. cbn [self history transport server_url session].
  intros -> Hopen. unfold async_with, __aenter__; run.
  cbn [String.eqb Ascii.eqb Bool.eqb]. unfold set_client; run.
  rewrite Hopen. auto.
Qed.

(** The wrapper's attributes after an `async with` are those the body
    left. *)
Lemma async_with_self {A : Type} (body : M A) (w w1 w2 : world) (r : result A) :
  __aenter__ X w = (Return tt, w1) →
  body w1 = (r, w2) →
  self (snd (async_with X body w)) = self w2.
Proof.
  intros Henter Hbody. unfold async_with. rewrite Henter, Hbody.
  destruct r as [a|e].
  - destruct (aexit_keeps_self None w2) as [Hr Hself].
    destruct (__aexit__ X None w2) as [[[]|e] w3]; exact Hself.
  - destruct (aexit_keeps_self (Some e) w2) as [Hr Hself].
    destruct (__aexit__ X (Some e) w2) as [[[]|e'] w3]; exact Hself.
Qed.

(** Leaving the `async with` does not reset the session: an operation
    invoked on the wrapper afterwards passes the guard and calls the
    tool on the closed session. *)
Theorem session_kept_after_exit {A : Type} (body : M A)
    (w w1 w2 : world) (r : result A) (op : operation) :
  __aenter__ X w = (Return tt, w1) →
  body w1 = (r, w2) →
  self w2 = self w1 →
  let after := snd (async_with X body w) in
  is_Some (session (self after))
  ∧ List.filter is_network (events_since after (snd (invoke X op after)))
    = [CallTool (tool_name op) (arguments_sent op)].
Proof.
  intros Henter Hbody Hself after.
  assert (is_Some (session (self after))) as Hs.
  { unfold after. rewrite (async_with_self body w w1 w2 r Henter Hbody), Hself.
    apply (aenter_returned X w w1 Henter). }
  split; [exact Hs |].
  rewrite invoke_established by exact Hs.
  destruct (session_call_tool X _ _ _) as [res|e];
    [destruct (_convert_result_to_dict X res) as [v|e] |];
    since; destruct op; reflexivity.
Qed.

End wrapper_more.

(* ===================================================================== *)
(* More of the routes                                                     *)
(* ===================================================================== *)

Section routes_more.

Variable X : collaborators.
Variable MCP_SERVER_URL : string.
Variable MCP_TRANSPORT : string.

Local Abbreviation post := (app.post X MCP_SERVER_URL MCP_TRANSPORT).
Local Abbreviation open_client := (app.open_client X MCP_SERVER_URL MCP_TRANSPORT).

(** The world a handler has reached when its client is open: a new
    wrapper over the configured URL, holding transport and session, and
    the three opening calls in the history. *)
Lemma open_client_returned (w w1 : world) :
  open_client w = (Return tt, w1) →
  MCP_TRANSPORT = "sse"
  ∧ ∃ st,
      w1 = {| self := {| transport := "sse"; server_url := MCP_SERVER_URL;
                         session := Some (NewClientSession st);
                         client := Some (NewSseClient MCP_SERVER_URL);
                         client_streams := Some st |};
              history := history w ++
                [TransportEnter MCP_SERVER_URL; SessionEnter; SessionInitialize;
                 Log INFO "Connected to Graphiti MCP Server" None] |}.
Proof.
  destruct w as [me h].
  unfold app.open_client, __init__, __aenter__, initialize; run.
  destruct (String.eqb MCP_TRANSPORT "sse") eqn:Hsse.
  - apply String.eqb_eq in Hsse. subst MCP_TRANSPORT.
    unfold set_client, set_client_streams, set_session; run.
    destruct (sse_client_aenter X MCP_SERVER_URL h) as [st|e]; [| discriminate].
    destruct (session_aenter X _) as [[]|e]; [| discriminate].
    destruct (session_initialize X _) as [[]|e]; [| discriminate].
    intros [= <-]. split; [reflexivity |]. exists st.
    rewrite <- !app_assoc. reflexivity.
  - destruct (String.eqb MCP_TRANSPORT "stdio"); discriminate.
Qed.

(** An operation leaves the wrapper's attributes as they are. *)
Lemma invoke_self (op : operation) (w : world) :
  self (snd (invoke X op w)) = self w.
Proof.
  destruct (session (self w)) as [s|] eqn:Hs.
  - rewrite invoke_established by (rewrite Hs; eauto).
    destruct (session_call_tool X _ _ _) as [res|e];
      [destruct (_convert_result_to_dict X res) as [v|e] |]; reflexivity.
  - rewrite invoke_guard by exact Hs. reflexivity.
Qed.

(** A handler whose body decodes to a dict and whose client opens: the
    answer follows the operation, and the world is the one __aexit__
    leaves after it. *)
Lemma post_opened (route : app.api_route) (req : request)
    (entries : list (string * value)) (w w1 : world) :
  get_json req = Return (VDict entries) →
  open_client w = (Return tt, w1) →
  post route req w
  = (Return match fst (invoke X (app.route_operation route entries) w1) with
            | Return v => app.jsonify v
            | Raise e => app.error_response e
            end,
     snd (__aexit__ X (exc_of (fst (invoke X (app.route_operation route entries) w1)))
            (snd (invoke X (app.route_operation route entries) w1)))).
Proof.
  intros Hjson Hopen.
  rewrite (post_decoded X MCP_SERVER_URL MCP_TRANSPORT route req entries w Hjson).
  unfold try_except.
  rewrite (with_client_entered X MCP_SERVER_URL MCP_TRANSPORT _ w w1 Hopen).
  cbv beta iota delta [mbind M_bind mret M_ret].
  destruct (invoke X (app.route_operation route entries) w1) as [[v|e] w2]; reflexivity.
Qed.

(** The calls of one request, in order, when the body decodes to a dict
    and the client opens: connect, enter the session, handshake, the one
    tool call of the route's operation, then both closes, which get the
    operation's failure if it raised.  The answer is 200 exactly when
    the closes got no failure. *)
Theorem route_round_trip (route : app.api_route) (req : request)
    (entries : list (string * value)) (w w1 : world) :
  get_json req = Return (VDict entries) →
  open_client w = (Return tt, w1) →
  let op := app.route_operation route entries in
  ∃ exc resp,
    fst (post route req w) = Return resp
    ∧ List.filter is_network (events_since w (snd (post route req w)))
      = [TransportEnter MCP_SERVER_URL; SessionEnter; SessionInitialize;
         CallTool (tool_name op) (arguments_sent op);
         SessionExit exc; TransportExit exc]
    ∧ match exc with
      | None => status resp = 200
      | Some e => resp = app.error_response e
      end.
Proof.
  intros Hjson Hopen op.
  rewrite (post_opened route req entries w w1 Hjson Hopen). fold op.
  destruct (open_client_returned w w1 Hopen) as (_ & st & ->).
  rewrite invoke_established by (eexists; reflexivity).
  cbn [history extend self].
  destruct (session_call_tool X _ _ _) as [res|e];
    [destruct (_convert_result_to_dict X res) as [v|e] |];
    cbn [fst snd exc_of];
    (match goal with
     | |- context [__aexit__ X ?exc ?w2] =>
         rewrite (aexit_established X exc w2
                    ltac:(eexists; reflexivity) ltac:(eexists; reflexivity));
         exists exc
     end);
    cbn [history extend self];
    (eexists; split; [reflexivity |]);
    (split; [| reflexivity]);
    repeat match goal with
    | |- context [warning_of ?t ?r] => destruct r as [[]|?]; cbn [warning_of]
    end;
    since; destruct route; reflexivity.
Qed.

(** Every field of the body reaches the parameter mapping of the one
    tool call: a key the body has, with its value as it is, an explicit
    null included; a key the body lacks, with the handler's default.  In
    the search and episode routes an optional key whose value is missing
    or null is left out of the mapping; /api/add_memory sends group_id
    and uuid in every case. *)
Theorem route_fields_reach_the_mapping (route : app.api_route) (req : request)
    (entries : list (string * value)) (w w1 : world) :
  get_json req = Return (VDict entries) →
  open_client w = (Return tt, w1) →
  let field key fallback := default fallback (alist_get entries key) in
  ∃ name sent later,
    events_since w (snd (post route req w))
      = ([TransportEnter MCP_SERVER_URL; SessionEnter; SessionInitialize;
          Log INFO "Connected to Graphiti MCP Server" None;
          CallTool name sent] ++ later)%list
    ∧ match route with
      | app.api_add_memory =>
          name = "add_memory"
          ∧ sent !! "name" = Some (field "name" (VStr ""))
          ∧ sent !! "episode_body" = Some (field "episode_body" (VStr ""))
          ∧ sent !! "source" = Some (field "source" (VStr "text"))
          ∧ sent !! "source_description" = Some (field "source_description" (VStr ""))
          ∧ sent !! "group_id" = Some (field "group_id" VNone)
          ∧ sent !! "uuid" = Some (field "uuid" VNone)
      | app.api_search_nodes =>
          name = "search_memory_nodes"
          ∧ sent !! "query" = Some (field "query" (VStr ""))
          ∧ sent !! "max_nodes" = Some (field "max_nodes" (VInt 10))
          ∧ sent !! "entity" = Some (field "entity" (VStr ""))
          ∧ sent !! "group_ids" = supplied (field "group_ids" VNone)
          ∧ sent !! "center_node_uuid" = supplied (field "center_node_uuid" VNone)
      | app.api_search_facts =>
          name = "search_memory_facts"
          ∧ sent !! "query" = Some (field "query" (VStr ""))
          ∧ sent !! "max_facts" = Some (field "max_facts" (VInt 10))
          ∧ sent !! "group_ids" = supplied (field "group_ids" VNone)
          ∧ sent !! "center_node_uuid" = supplied (field "center_node_uuid" VNone)
      | app.api_get_episodes =>
          name = "get_episodes"
          ∧ sent !! "last_n" = Some (field "last_n" (VInt 10))
          ∧ sent !! "group_id" = supplied (field "group_id" VNone)
      end.
Proof.
  intros Hjson Hopen field.
  rewrite (post_opened route req entries w w1 Hjson Hopen).
  destruct (open_client_returned w w1 Hopen) as (_ & st & ->).
  rewrite invoke_established by (eexists; reflexivity).
  exists (tool_name (app.route_operation route entries)),
         (arguments_sent (app.route_operation route entries)).
  cbn [history self].
  destruct (session_call_tool X _ _ _) as [res|e];
    [destruct (_convert_result_to_dict X res) as [v|e] |];
    cbn [fst snd exc_of];
    (match goal with
     | |- context [__aexit__ X ?exc ?w2] =>
         rewrite (aexit_established X exc w2
                    ltac:(eexists; reflexivity) ltac:(eexists; reflexivity))
     end);
    since; (eexists; split; [reflexivity |]);
    destruct route; cbn [app.route_operation tool_name arguments_sent];
    subst field; cbv beta;
    repeat match goal with
    | |- context [supplied (default ?d ?o)] => generalize (default d o); intros [| | | | | |]
    end;
    cbn [set_if_not_None supplied]; repeat split; reflexivity.
Qed.

(** A body that decodes to anything but a dict (null, a list, a string,
    a number) is answered with status 500 and the AttributeError of
    data.get; no client is constructed and nothing is sent. *)
Theorem body_not_a_dict (route : app.api_route) (req : request) (data : value)
    (w : world) :
  get_json req = Return data →
  is_dict data = false →
  post route req w
  = (Return {| body := VDict [("error",
                               VStr ("'" +:+ type_name data
                                     +:+ "' object has no attribute 'get'"))];
               status := 500 |},
     w).
Proof.
  destruct req as [[data'|e]]; cbn [get_json]; intros [= ->] Hshape.
  destruct data; try discriminate; destruct route; reflexivity.
Qed.

(** With a transport setting other than "sse" every POST is answered
    with status 500 and the message of the exception __aenter__ raises;
    nothing is sent and nothing is logged. *)
Theorem route_misconfigured_transport (route : app.api_route) (req : request)
    (entries : list (string * value)) (w : world) :
  MCP_TRANSPORT ≠ "sse" →
  get_json req = Return (VDict entries) →
  fst (post route req w)
    = Return {| body := VDict [("error",
                  VStr (if String.eqb MCP_TRANSPORT "stdio"
                        then "Stdio transport not implemented in this example"
                        else "Unsupported transport: " +:+ MCP_TRANSPORT))];
                status := 500 |}
  ∧ history (snd (post route req w)) = history w.
Proof.
  intros Hsse Hjson. apply String.eqb_neq in Hsse.
  rewrite (post_decoded X MCP_SERVER_URL MCP_TRANSPORT route req entries w Hjson).
  destruct w as [me h].
  unfold try_except, app.with_client, async_with, __init__, __aenter__; run.
  rewrite Hsse. destruct (String.eqb MCP_TRANSPORT "stdio"); split; reflexivity.
Qed.

(** When the handshake fails after the transport and the session were
    entered, the operation is not invoked: no tool is called, session
    and transport are closed with that failure, and the answer is
    status 500 with its message. *)
Theorem route_handshake_failure (route : app.api_route) (req : request)
    (entries : list (string * value)) (w : world) (st : streams) (e : exn) :
  MCP_TRANSPORT = "sse" →
  get_json req = Return (VDict entries) →
  sse_client_aenter X MCP_SERVER_URL (history w) = Return st →
  session_aenter X (history w ++ [TransportEnter MCP_SERVER_URL])%list = Return tt →
  session_initialize X (history w ++ [TransportEnter MCP_SERVER_URL; SessionEnter])%list
    = Raise e →
  fst (post route req w) = Return (app.error_response e)
  ∧ List.filter is_network (events_since w (snd (post route req w)))
    = [TransportEnter MCP_SERVER_URL; SessionEnter; SessionInitialize;
       SessionExit (Some e); TransportExit (Some e)].
Proof.
  intros Hsse Hjson Hconnect Henter Hshake.
  rewrite (post_decoded X MCP_SERVER_URL MCP_TRANSPORT route req entries w Hjson).
  destruct w as [me h]. cbn [history] in *.
  unfold try_except, app.with_client, async_with, __init__, __aenter__, initialize; run.
  rewrite Hsse. cbn [String.eqb Ascii.eqb Bool.eqb].
  unfold set_client, set_client_streams, set_session; run.
  rewrite Hconnect, Henter. rewrite <- !app_assoc. cbn [app]. rewrite Hshake.
  match goal with
  | |- context [__aexit__ X ?exc ?w2] =>
      rewrite (aexit_established X exc w2
                 ltac:(eexists; reflexivity) ltac:(eexists; reflexivity))
  end.
  split; [reflexivity |].
  repeat match goal with
  | |- context [warning_of ?t ?r] => destruct r as [[]|?]; cbn [warning_of]
  end; since; reflexivity.
Qed.

(** Under an established session get_status returns a mapping of status
    "connected", whatever the listing answers. *)
Lemma get_status_connected (w : world) :
  is_Some (session (self w)) →
  ∃ message,
    fst (get_status X w)
    = Return (VDict [("status", VStr "connected"); ("message", VStr message)]).
Proof.
  destruct w as [[tr url [s|] c cs] h]; intros [s' Hs]; [clear Hs | discriminate].
  unfold get_status; run.
  destruct (session_list_resources X h) as [listing|e]; eexists; reflexivity.
Qed.

(** GET /api/status: when the client opens, the answer is status 200
    with a "connected" mapping even if the resource listing fails; the
    answer is 500 only when the client fails to open. *)
Theorem status_route_answers (w : world) :
  (∀ w1, open_client w = (Return tt, w1) →
     ∃ message,
       fst (app.get_status X MCP_SERVER_URL MCP_TRANSPORT w)
       = Return {| body := VDict [("status", VStr "connected");
                                  ("message", VStr message)];
                   status := 200 |})
  ∧ (∀ e w1, open_client w = (Raise e, w1) →
     fst (app.get_status X MCP_SERVER_URL MCP_TRANSPORT w)
     = Return (app.error_response e)).
Proof.
  split.
  - intros w1 Hopen. unfold app.get_status, try_except.
    rewrite (with_client_entered X MCP_SERVER_URL MCP_TRANSPORT _ w w1 Hopen).
    destruct (open_client_returned w w1 Hopen) as (_ & st & Hw1).
    destruct (get_status_connected w1) as [message Hstatus].
    { rewrite Hw1. eexists. reflexivity. }
    exists message. cbv beta iota delta [mbind M_bind mret M_ret].
    destruct (get_status X w1) as [r w2]. cbn [fst] in Hstatus. subst r. reflexivity.
  - intros e w1 Hopen. unfold app.get_status, try_except.
    pose proof (with_client_not_entered X MCP_SERVER_URL MCP_TRANSPORT
                  (status ← get_status X; mret (app.jsonify status)) w w1 e Hopen) as Hrun.
    destruct (app.with_client _ _ _ _ w) as [[resp|e'] w']; cbn [fst] in Hrun;
      [discriminate |].
    injection Hrun as ->. reflexivity.
Qed.

End routes_more.

(* ===================================================================== *)
(* The scripts                                                            *)
(* ===================================================================== *)

(** Unfolds the steps of a script down to the steps of the wrapper. *)
Ltac run_io :=
  cbv beta iota delta
    [mbind IO_bind mret IO_ret run_world print try_except_io the_world stdout].

Section script_facts.

Variable X : collaborators.

(** A script step that runs a wrapper step which returns. *)
Lemma bind_run_world {A B : Type} (m : M A) (f : A → IO B) (p : process)
    (r : result A) (w' : world) :
  m (the_world p) = (r, w') →
  mbind f (run_world m) p
  = match r with
    | Return a => f a {| the_world := w'; stdout := stdout p |}
    | Raise e => (Raise e, {| the_world := w'; stdout := stdout p |})
    end.
Proof.
  intros Hm. cbv beta iota delta [mbind IO_bind run_world]. rewrite Hm.
  destruct r; reflexivity.
Qed.

(** The conversion returns when json.loads refuses only with ValueError. *)
Lemma convert_returns (res : call_tool_result) :
  (∀ text e, json_loads X text = Raise e → is_ValueError e = true) →
  ∃ v, _convert_result_to_dict X res = Return v.
Proof.
  intros Hloads.
  destruct res as [| [| [text | str_of] rest] | [|] str_of]; cbn [_convert_result_to_dict];
    try (eexists; reflexivity).
  destruct (json_loads X text) as [v|e] eqn:Hparse; [eexists; reflexivity |].
  rewrite (Hloads text e Hparse). eexists. reflexivity.
Qed.

(** Against a server that is up an operation returns, after its one
    call and its INFO record. *)
Lemma invoke_up (st : streams) (op : operation) (w : world) :
  server_up X st →
  is_Some (session (self w)) →
  ∃ v, invoke X op w
       = (Return v, extend w [CallTool (tool_name op) (arguments_sent op); info_record op]).
Proof.
  intros (_ & _ & _ & Hcall & Hloads) Hs.
  rewrite invoke_established by exact Hs.
  destruct (Hcall (tool_name op) (arguments_sent op) (history w)) as [res ->].
  destruct (convert_returns res Hloads) as [v ->]. eauto.
Qed.

(** get_status under a session: one listing, one log record. *)
Lemma get_status_up (w : world) :
  is_Some (session (self w)) →
  ∃ status record,
    get_status X w = (Return status, extend w [ListResources; record])
    ∧ is_network record = false.
Proof.
  destruct w as [[tr url [s|] c cs] h]; intros [s' Hs]; [clear Hs | discriminate].
  unfold get_status; run.
  destruct (session_list_resources X h) as [listing|e];
    rewrite <- app_assoc; eexists _, _; split; reflexivity.
Qed.

Lemma initialize_up (st : streams) (w : world) :
  server_up X st →
  is_Some (session (self w)) →
  initialize X w
  = (Return tt, extend w [SessionInitialize; Log INFO "Connected to Graphiti MCP Server" None]).
Proof.
  intros (_ & _ & Hshake & _).
  destruct w as [[tr url [s|] c cs] h]; intros [s' Hs]; [clear Hs | discriminate].
  unfold initialize; run. rewrite Hshake. rewrite <- app_assoc. reflexivity.
Qed.

Lemma aenter_up (st : streams) (w : world) :
  server_up X st →
  transport (self w) = "sse" →
  __aenter__ X w
  = (Return tt,
     {| self := {| transport := "sse"; server_url := server_url (self w);
                   session := Some (NewClientSession st);
                   client := Some (NewSseClient (server_url (self w)));
                   client_streams := Some st |};
        history := history w ++ [TransportEnter (server_url (self w)); SessionEnter] |}).
Proof.
  intros (Hconnect & Henter & _).
  destruct w as [[tr url s c cs] h]. cbn [self transport server_url history]. intros ->.
  unfold __aenter__; run. cbn [String.eqb Ascii.eqb Bool.eqb].
  unfold set_client, set_client_streams, set_session; run.
  rewrite Hconnect, Henter. rewrite <- app_assoc. reflexivity.
Qed.


(** Script steps that cannot fail. *)
Lemma bind_log {B : Type} (lvl : level) (text : string) (arg : option log_arg)
    (f : unit → IO B) (p : process) :
  mbind f (run_world (log lvl text arg)) p
  = f tt {| the_world := extend (the_world p) [Log lvl text arg]; stdout := stdout p |}.
Proof. reflexivity. Qed.

Lemma bind_print {B : Type} (text : string) (arg : option log_arg)
    (f : unit → IO B) (p : process) :
  mbind f (print text arg) p
  = f tt {| the_world := the_world p; stdout := stdout p ++ [Printed text arg] |}.
Proof. reflexivity. Qed.

Ltac step_invoke st Hup :=
  let v := fresh "v" in
  let Hv := fresh "Hv" in
  match goal with
  | |- context [mbind ?f (run_world ?m) ?p] =>
      let op :=
        lazymatch m with
        | add_memory _ ?a ?b ?c ?d ?e ?g => constr:(Add_memory a b c d e g)
        | search_memory_nodes _ ?a ?b ?c ?d ?e => constr:(Search_memory_nodes a b c d e)
        | search_memory_facts _ ?a ?b ?c ?d => constr:(Search_memory_facts a b c d)
        | get_episodes _ ?a ?b => constr:(Get_episodes a b)
        end in
      destruct (invoke_up st op (the_world p) Hup ltac:(eexists; reflexivity)) as [v Hv];
      cbn [invoke the_world] in Hv;
      rewrite (bind_run_world m f p _ _ Hv); cbv beta; cbn [the_world stdout]; clear Hv
  end.

Ltac step_print := rewrite bind_print; cbv beta; cbn [the_world stdout].
Ltac step_log := rewrite bind_log; cbv beta; cbn [the_world stdout].

Ltac step_init url :=
  match goal with
  | |- context [mbind ?f (run_world (__init__ "sse" url)) ?p] =>
      rewrite (bind_run_world (__init__ "sse" url) f p (Return tt) _ eq_refl);
      cbv beta; cbn [the_world stdout]
  end.

Ltac step_enter st Hup :=
  unfold async_with_io; cbn [the_world stdout];
  match goal with
  | |- context [__aenter__ _ ?w] => rewrite (aenter_up st w Hup eq_refl)
  end;
  cbn [self history server_url extend].

Ltac step_initialize st Hup :=
  match goal with
  | |- context [mbind ?f (run_world (initialize ?x)) ?p] =>
      rewrite (bind_run_world _ f p _ _
                 (initialize_up st (the_world p) Hup ltac:(eexists; reflexivity)));
      cbv beta; cbn [the_world stdout]
  end.

Ltac step_status :=
  let answer := fresh "answer" in
  let record := fresh "record" in
  let Hstatus := fresh "Hstatus" in
  let Hrecord := fresh "Hrecord" in
  match goal with
  | |- context [mbind ?f (run_world (get_status ?x)) ?p] =>
      destruct (get_status_up (the_world p) ltac:(eexists; reflexivity))
        as (answer & record & Hstatus & Hrecord);
      rewrite (bind_run_world _ f p _ _ Hstatus);
      cbv beta; cbn [the_world stdout]; clear Hstatus
  end.

Ltac step_exit :=
  match goal with
  | |- context [__aexit__ ?x ?exc ?w2] =>
      rewrite (aexit_established x exc w2
                 ltac:(eexists; reflexivity) ltac:(eexists; reflexivity))
  end;
  cbv beta iota zeta; cbn [the_world stdout history self extend].

(** The whole of demo_client against a server that is up. *)
Ltac run_demo st Hup :=
  unfold demo_client;
  step_log;
  match goal with
  | |- context [mbind ?f (run_world (__init__ ?t ?u)) ?p] =>
      rewrite (bind_run_world (__init__ t u) f p (Return tt) _ eq_refl);
      cbv beta; cbn [the_world stdout]
  end;
  step_enter st Hup; step_initialize st Hup; step_log;
  step_status; step_print; step_log;
  step_invoke st Hup; step_print;
  step_invoke st Hup; step_print;
  step_invoke st Hup; step_print;
  step_log; step_invoke st Hup; step_print;
  step_log; step_invoke st Hup; step_print;
  step_log; step_invoke st Hup; step_print;
  cbv beta iota delta [run_world log the_world stdout];
  step_exit.

Ltac case_closes :=
  repeat match goal with
  | |- context [warning_of ?t ?r] => destruct r as [[]|?]; cbn [warning_of]
  end.

(** demo_client against a server that is up returns, and its calls are,
    in order: connect, enter, handshake, the resource listing, three
    add_memory, search_memory_nodes, search_memory_facts, get_episodes,
    and the two closes.  The three add_memory send group_id and uuid as
    None; the two searches and get_episodes send no optional key.  It
    prints one line per result. *)
Theorem demo_client_round_trip (st : streams) (url : string) (p : process) :
  server_up X st →
  fst (demo_client X "sse" url p) = Return tt
  ∧ List.filter is_network
      (events_since (the_world p) (the_world (snd (demo_client X "sse" url p))))
    = [TransportEnter url; SessionEnter; SessionInitialize; ListResources;
       CallTool "add_memory"
         {[ "name" := VStr "Project Meeting Notes";
            "episode_body" := VStr "Discussed the new feature requirements for the Q3 release. Team agreed on the timeline and resource allocation.";
            "group_id" := VNone;
            "source" := VStr "text";
            "source_description" := VStr "meeting notes";
            "uuid" := VNone ]};
       CallTool "add_memory"
         {[ "name" := VStr "Project Configuration";
            "episode_body" := VStr json_data;
            "group_id" := VNone;
            "source" := VStr "json";
            "source_description" := VStr "project config";
            "uuid" := VNone ]};
       CallTool "add_memory"
         {[ "name" := VStr "User Query";
            "episode_body" := VStr message_data;
            "group_id" := VNone;
            "source" := VStr "message";
            "source_description" := VStr "chat transcript";
            "uuid" := VNone ]};
       CallTool "search_memory_nodes"
         {[ "query" := VStr "project information"; "max_nodes" := VInt 5;
            "entity" := VStr "" ]};
       CallTool "search_memory_facts"
         {[ "query" := VStr "feature requirements"; "max_facts" := VInt 5 ]};
       CallTool "get_episodes" {[ "last_n" := VInt 3 ]};
       SessionExit None; TransportExit None]
  ∧ map printed_text (drop (length (stdout p)) (stdout (snd (demo_client X "sse" url p))))
    = ["Server Status: "; "Added text episode: "; "Added JSON episode: ";
       "Added message episode: "; "Node search result: "; "Fact search result: ";
       "Episodes: "].
Proof.
  intros Hup. run_demo st Hup.
  split; [reflexivity |]. split.
  - case_closes; since; cbn [List.filter is_network info_record];
      match goal with
      | H : is_network _ = false |- _ => rewrite H
      end; reflexivity.
  - cbn [snd stdout]. rewrite <- !app_assoc. cbn [app]. rewrite drop_app_length.
    reflexivity.
Qed.

(** main(): without --demo it logs one INFO record, opens nothing and
    exits with status 0.  With --demo --transport stdio it exits with
    status 1: nothing is sent or printed, and the NotImplementedError of
    __aenter__ is logged as an ERROR.  With --demo over "sse" against a
    server that is up it exits with status 0. *)
Theorem main_exit_status (args : Namespace) (p : process) :
  (args_demo args = false →
   main X args p
   = (Return 0,
      {| the_world :=
           extend (the_world p)
             [Log INFO "Graphiti MCP Client initialized. Use --demo to run the demo." None];
         stdout := stdout p |}))
  ∧ (args_demo args = true → args_transport args = "stdio" →
     fst (main X args p) = Return 1
     ∧ events_since (the_world p) (the_world (snd (main X args p)))
       = [Log INFO "Starting Graphiti MCP Client demo" None;
          Log ERROR "Error running Graphiti MCP Client: "
            (Some (ArgExn (Exn NotImplementedError
                             "Stdio transport not implemented in this example")))]
     ∧ stdout (snd (main X args p)) = stdout p)
  ∧ (args_demo args = true → args_transport args = "sse" →
     ∀ st, server_up X st → fst (main X args p) = Return 0).
Proof.
  destruct args as [tr url demo]. cbn [args_demo args_transport].
  split; [| split].
  - intros ->. reflexivity.
  - intros -> ->. destruct p as [[me h] out]. split; [reflexivity |].
    split; [| reflexivity].
    unfold main, demo_client, async_with_io, __init__, __aenter__.
    cbn [args_demo args_transport args_server_url]. run_io. run.
    cbn [String.eqb Ascii.eqb Bool.eqb]. since. reflexivity.
  - intros -> -> st Hup. unfold main, try_except_io.
    cbn [args_demo args_transport args_server_url].
    cbv beta iota delta [mbind IO_bind mret IO_ret].
    run_demo st Hup. reflexivity.
Qed.

(** simple_test.py: test_connection never raises.  It returns True, and
    the script exits with status 0, exactly when the wrapper over
    "sse" and http://localhost:8000/sse connects, enters and shakes
    hands; otherwise it returns False, the script exits with status 1,
    and the last line printed carries the failure. *)
Theorem test_connection_result (p : process) :
  match app.open_client X "http://localhost:8000/sse" "sse" (the_world p) with
  | (Return _, _) =>
      fst (simple_test.test_connection X p) = Return true
      ∧ fst (simple_test.script X p) = Return 0
  | (Raise e, _) =>
      fst (simple_test.test_connection X p) = Return false
      ∧ fst (simple_test.script X p) = Return 1
      ∧ last (stdout (snd (simple_test.test_connection X p)))
        = Some (Printed "Connection test failed: " (Some (ArgExn e)))
  end.
Proof.
  destruct p as [w out].
  unfold simple_test.script, simple_test.test_connection, app.open_client, async_with_io.
  run_io. cbv beta iota delta [mbind M_bind __init__].
  destruct (__aenter__ X _) as [[[]|e] w1].
  - destruct (initialize X w1) as [[[]|e] w2].
    + pose proof (aexit_returns X None w2) as Hexit.
      destruct (__aexit__ X None w2) as [[[]|e] w3]; [| discriminate].
      split; reflexivity.
    + pose proof (aexit_returns X (Some e) w2) as Hexit.
      destruct (__aexit__ X (Some e) w2) as [[[]|e'] w3]; [| discriminate].
      cbn [fst snd stdout]. rewrite last_snoc. auto.
  - cbn [fst snd stdout]. rewrite last_snoc. auto.
Qed.

(** test_tools.py: test_tools never raises.  It returns True, and the
    script exits with status 0, exactly when the wrapper opens and its
    one add_memory returns; when the wrapper fails to open or the
    add_memory raises, it returns False and the script exits with 1. *)
Theorem test_tools_result (p : process) :
  let wanted :=
    match app.open_client X "http://localhost:8000/sse" "sse" (the_world p) with
    | (Return _, w1) =>
        match fst (invoke X (Add_memory (VStr "Test Note")
                               (VStr "This is a test note from the MCP client.")
                               VNone (VStr "text") (VStr "test") VNone) w1) with
        | Return _ => true
        | Raise _ => false
        end
    | (Raise _, _) => false
    end in
  fst (test_tools.test_tools X p) = Return wanted
  ∧ fst (test_tools.script X p) = Return (if wanted then 0 else 1).
Proof.
  destruct p as [w out].
  unfold test_tools.script, test_tools.test_tools, app.open_client, async_with_io.
  run_io. cbv beta iota delta [mbind M_bind __init__]. cbn [invoke].
  destruct (__aenter__ X _) as [[[]|e] w1]; [| split; reflexivity].
  destruct (initialize X w1) as [[[]|e] w2].
  - destruct (add_memory X _ _ _ _ _ _ w2) as [[v|e] w3]; cbn [fst].
    + pose proof (aexit_returns X None w3) as Hexit.
      destruct (__aexit__ X None w3) as [[[]|e] w4]; [| discriminate].
      split; reflexivity.
    + pose proof (aexit_returns X (Some e) w3) as Hexit.
      destruct (__aexit__ X (Some e) w3) as [[[]|e'] w4]; [| discriminate].
      split; reflexivity.
  - pose proof (aexit_returns X (Some e) w2) as Hexit.
    destruct (__aexit__ X (Some e) w2) as [[[]|e'] w3]; [| discriminate].
    split; reflexivity.
Qed.

(** example_usage.py against a server that is up: it returns, and its
    calls are, in order: connect, enter, handshake, the resource
    listing, add_memory, search_memory_nodes, search_memory_facts, and
    the two closes. *)
Theorem example_usage_round_trip (st : streams) (p : process) :
  server_up X st →
  fst (example_usage.example_usage X p) = Return tt
  ∧ List.filter is_network
      (events_since (the_world p) (the_world (snd (example_usage.example_usage X p))))
    = [TransportEnter "http://localhost:8000/sse"; SessionEnter; SessionInitialize;
       ListResources;
       CallTool "add_memory"
         {[ "name" := VStr "Example Note";
            "episode_body" := VStr "This is an example note added through the MCP client.";
            "group_id" := VNone;
            "source" := VStr "text";
            "source_description" := VStr "example";
            "uuid" := VNone ]};
       CallTool "search_memory_nodes"
         {[ "query" := VStr "example"; "max_nodes" := VInt 5; "entity" := VStr "" ]};
       CallTool "search_memory_facts"
         {[ "query" := VStr "example"; "max_facts" := VInt 5 ]};
       SessionExit None; TransportExit None].
Proof.
  intros Hup. unfold example_usage.example_usage.
  match goal with
  | |- context [mbind ?f (run_world (__init__ ?t ?u)) ?p] =>
      rewrite (bind_run_world (__init__ t u) f p (Return tt) _ eq_refl);
      cbv beta; cbn [the_world stdout]
  end.
  step_enter st Hup. step_initialize st Hup. step_status. step_print.
  step_invoke st Hup. step_print. step_invoke st Hup. step_print.
  step_invoke st Hup. cbv beta iota delta [print the_world stdout]. step_exit.
  split; [reflexivity |].
  case_closes; since; cbn [List.filter is_network info_record];
    match goal with
    | H : is_network _ = false |- _ => rewrite H
    end; reflexivity.
Qed.

End script_facts.

(* ===================================================================== *)
(* Concrete runs of the further properties                                *)
(* ===================================================================== *)

Lemma demo_up_is_up : server_up demo.up (0%nat, 1%nat).
Proof.
  repeat split; intros; try reflexivity.
  - eexists. reflexivity.
  - revert H. unfold demo.up, demo.scripted, json_loads, demo.loads.
    destruct (String.eqb text "[1, 2]"); [discriminate |].
    destruct (String.eqb text "{}"); [discriminate |].
    destruct (String.eqb text "null"); [discriminate |].
    intros [= <-]. reflexivity.
Defined.

Lemma conversion_failure_witness :
  invoke (demo.staged (λ _, Raise demo.too_deep) (Return (0%nat, 1%nat)) (Return tt)
            (Return tt) (Return (ContentList [TextContent "[[[["])) (Return "[]")
            (Return tt))
    Clear_graph demo.connected
  = (Raise demo.too_deep,
     extend demo.connected
       [CallTool "clear_graph" ∅; Log INFO "Cleared graph" None;
        Log ERROR "Error clearing graph: " (Some (ArgExn demo.too_deep))]).
Proof.
  apply (conversion_failure_reraised
           (demo.staged (λ _, Raise demo.too_deep) (Return (0%nat, 1%nat)) (Return tt)
              (Return tt) (Return (ContentList [TextContent "[[[["])) (Return "[]")
              (Return tt))
           Clear_graph demo.connected "[[[[" [] demo.too_deep).
  - exists (NewClientSession (0%nat, 1%nat)). reflexivity.
  - reflexivity.
  - reflexivity.
  - reflexivity.
Defined.

Lemma arguments_reach_witness :
  ∃ later,
    events_since demo.connected
      (snd (invoke demo.up
              (Search_memory_nodes (VStr "example") VNone (VInt 5) VNone (VStr ""))
              demo.connected))
      = CallTool "search_memory_nodes"
          {[ "query" := VStr "example"; "max_nodes" := VInt 5; "entity" := VStr "" ]}
        :: later
    ∧ ({[ "query" := VStr "example"; "max_nodes" := VInt 5; "entity" := VStr "" ]}
         : gmap string value) !! "query" = Some (VStr "example")
    ∧ ({[ "query" := VStr "example"; "max_nodes" := VInt 5; "entity" := VStr "" ]}
         : gmap string value) !! "max_nodes" = Some (VInt 5)
    ∧ ({[ "query" := VStr "example"; "max_nodes" := VInt 5; "entity" := VStr "" ]}
         : gmap string value) !! "entity" = Some (VStr "")
    ∧ ({[ "query" := VStr "example"; "max_nodes" := VInt 5; "entity" := VStr "" ]}
         : gmap string value) !! "group_ids" = None
    ∧ ({[ "query" := VStr "example"; "max_nodes" := VInt 5; "entity" := VStr "" ]}
         : gmap string value) !! "center_node_uuid" = None.
Proof.
  apply (arguments_reach_the_mapping demo.up
           (Search_memory_nodes (VStr "example") VNone (VInt 5) VNone (VStr ""))
           demo.connected).
  exists (NewClientSession (0%nat, 1%nat)). reflexivity.
Defined.

Lemma get_status_lists_witness :
  ∃ evs,
    snd (get_status (demo.scripted (Return NoContentAttribute) (Raise demo.refused)
                       (Return tt)) demo.connected)
      = extend demo.connected evs
    ∧ List.filter is_network evs = [ListResources].
Proof.
  apply (get_status_lists_once
           (demo.scripted (Return NoContentAttribute) (Raise demo.refused) (Return tt))
           demo.connected).
  exists (NewClientSession (0%nat, 1%nat)). reflexivity.
Defined.

Lemma async_with_refused_witness :
  ∃ e,
    async_with demo.up (invoke demo.up Clear_graph)
      (demo.fresh "stdio" "http://localhost:8000/sse")
      = (Raise e, demo.fresh "stdio" "http://localhost:8000/sse")
    ∧ exn_class_of e = NotImplementedError.
Proof.
  apply (async_with_refused_transport demo.up (invoke demo.up Clear_graph)
           (demo.fresh "stdio" "http://localhost:8000/sse")).
  discriminate.
Defined.

Lemma async_with_connect_failure_witness :
  fst (async_with
         (demo.staged demo.loads (Raise demo.refused) (Return tt) (Return tt)
            (Return NoContentAttribute) (Return "[]") (Return tt))
         (invoke demo.up Clear_graph) (demo.fresh "sse" "http://localhost:8000/sse"))
    = Raise demo.refused
  ∧ history (snd (async_with
                    (demo.staged demo.loads (Raise demo.refused) (Return tt) (Return tt)
                       (Return NoContentAttribute) (Return "[]") (Return tt))
                    (invoke demo.up Clear_graph)
                    (demo.fresh "sse" "http://localhost:8000/sse")))
    = [TransportEnter "http://localhost:8000/sse"]
  ∧ session (self (snd (async_with
                          (demo.staged demo.loads (Raise demo.refused) (Return tt)
                             (Return tt) (Return NoContentAttribute) (Return "[]")
                             (Return tt))
                          (invoke demo.up Clear_graph)
                          (demo.fresh "sse" "http://localhost:8000/sse"))))
    = None.
Proof.
  apply (async_with_connect_failure
           (demo.staged demo.loads (Raise demo.refused) (Return tt) (Return tt)
              (Return NoContentAttribute) (Return "[]") (Return tt))
           (invoke demo.up Clear_graph) (demo.fresh "sse" "http://localhost:8000/sse")
           demo.refused).
  - reflexivity.
  - reflexivity.
Defined.

Lemma aenter_failure_witness :
  fst (async_with
         (demo.staged demo.loads (Return (0%nat, 1%nat)) (Raise demo.refused) (Return tt)
            (Return NoContentAttribute) (Return "[]") (Return tt))
         (invoke demo.up Clear_graph) (demo.fresh "sse" "http://localhost:8000/sse"))
    = Raise demo.refused
  ∧ history (snd (async_with
                    (demo.staged demo.loads (Return (0%nat, 1%nat)) (Raise demo.refused)
                       (Return tt) (Return NoContentAttribute) (Return "[]") (Return tt))
                    (invoke demo.up Clear_graph)
                    (demo.fresh "sse" "http://localhost:8000/sse")))
    = [TransportEnter "http://localhost:8000/sse"; SessionEnter].
Proof.
  apply (aenter_failure_skips_aexit
           (demo.staged demo.loads (Return (0%nat, 1%nat)) (Raise demo.refused)
              (Return tt) (Return NoContentAttribute) (Return "[]") (Return tt))
           (invoke demo.up Clear_graph) (demo.fresh "sse" "http://localhost:8000/sse")
           (0%nat, 1%nat) demo.refused).
  - reflexivity.
  - reflexivity.
  - reflexivity.
Defined.

Lemma session_kept_witness :
  is_Some (session (self (snd (async_with demo.up (invoke demo.up Clear_graph)
                                 (demo.fresh "sse" "http://localhost:8000/sse")))))
  ∧ List.filter is_network
      (events_since
         (snd (async_with demo.up (invoke demo.up Clear_graph)
                 (demo.fresh "sse" "http://localhost:8000/sse")))
         (snd (invoke demo.up (Get_episodes VNone (VInt 1))
                 (snd (async_with demo.up (invoke demo.up Clear_graph)
                         (demo.fresh "sse" "http://localhost:8000/sse"))))))
    = [CallTool "get_episodes" {[ "last_n" := VInt 1 ]}].
Proof.
  apply (session_kept_after_exit demo.up (invoke demo.up Clear_graph)
           (demo.fresh "sse" "http://localhost:8000/sse") demo.connected
           (extend demo.connected [CallTool "clear_graph" ∅; Log INFO "Cleared graph" None])
           (Return (VDict [])) (Get_episodes VNone (VInt 1))).
  - reflexivity.
  - reflexivity.
  - reflexivity.
Defined.

Lemma route_round_trip_witness :
  ∃ exc resp,
    fst (app.post demo.up "http://localhost:8000/sse" "sse" app.api_search_nodes
           {| get_json := Return (VDict [("query", VStr "example"); ("max_nodes", VInt 5)]) |}
           (demo.fresh "" ""))
      = Return resp
    ∧ List.filter is_network
        (events_since (demo.fresh "" "")
           (snd (app.post demo.up "http://localhost:8000/sse" "sse" app.api_search_nodes
                   {| get_json :=
                        Return (VDict [("query", VStr "example"); ("max_nodes", VInt 5)]) |}
                   (demo.fresh "" ""))))
      = [TransportEnter "http://localhost:8000/sse"; SessionEnter; SessionInitialize;
         CallTool "search_memory_nodes"
           {[ "query" := VStr "example"; "max_nodes" := VInt 5; "entity" := VStr "" ]};
         SessionExit exc; TransportExit exc]
    ∧ match exc with
      | None => status resp = 200
      | Some e => resp = app.error_response e
      end.
Proof.
  apply (route_round_trip demo.up "http://localhost:8000/sse" "sse" app.api_search_nodes
           {| get_json := Return (VDict [("query", VStr "example"); ("max_nodes", VInt 5)]) |}
           [("query", VStr "example"); ("max_nodes", VInt 5)]
           (demo.fresh "" "") demo.opened).
  - reflexivity.
  - reflexivity.
Defined.

Lemma route_fields_witness :
  ∃ name sent later,
    events_since (demo.fresh "" "")
      (snd (app.post demo.up "http://localhost:8000/sse" "sse" app.api_add_memory
              {| get_json := Return (VDict [("name", VStr "Example Note")]) |}
              (demo.fresh "" "")))
      = ([TransportEnter "http://localhost:8000/sse"; SessionEnter; SessionInitialize;
          Log INFO "Connected to Graphiti MCP Server" None;
          CallTool name sent] ++ later)%list
    ∧ name = "add_memory"
    ∧ sent !! "name" = Some (VStr "Example Note")
    ∧ sent !! "episode_body" = Some (VStr "")
    ∧ sent !! "source" = Some (VStr "text")
    ∧ sent !! "source_description" = Some (VStr "")
    ∧ sent !! "group_id" = Some VNone
    ∧ sent !! "uuid" = Some VNone.
Proof.
  apply (route_fields_reach_the_mapping demo.up "http://localhost:8000/sse" "sse"
           app.api_add_memory
           {| get_json := Return (VDict [("name", VStr "Example Note")]) |}
           [("name", VStr "Example Note")] (demo.fresh "" "") demo.opened).
  - reflexivity.
  - reflexivity.
Defined.

Lemma body_not_a_dict_witness :
  app.post demo.up "http://localhost:8000/sse" "sse" app.api_get_episodes
    {| get_json := Return VNone |} (demo.fresh "" "")
  = (Return {| body := VDict [("error", VStr "'NoneType' object has no attribute 'get'")];
               status := 500 |},
     demo.fresh "" "").
Proof.
  apply (body_not_a_dict demo.up "http://localhost:8000/sse" "sse" app.api_get_episodes
           {| get_json := Return VNone |} VNone (demo.fresh "" "")).
  - reflexivity.
  - reflexivity.
Defined.

Lemma route_misconfigured_witness :
  fst (app.post demo.up "http://localhost:8000/sse" "stdio" app.api_search_facts
         {| get_json := Return (VDict [("query", VStr "example")]) |} (demo.fresh "" ""))
    = Return {| body := VDict [("error",
                                VStr "Stdio transport not implemented in this example")];
                status := 500 |}
  ∧ history (snd (app.post demo.up "http://localhost:8000/sse" "stdio" app.api_search_facts
                    {| get_json := Return (VDict [("query", VStr "example")]) |}
                    (demo.fresh "" "")))
    = [].
Proof.
  apply (route_misconfigured_transport demo.up "http://localhost:8000/sse" "stdio"
           app.api_search_facts
           {| get_json := Return (VDict [("query", VStr "example")]) |}
           [("query", VStr "example")] (demo.fresh "" "")).
  - discriminate.
  - reflexivity.
Defined.

Lemma route_handshake_failure_witness :
  fst (app.post
         (demo.staged demo.loads (Return (0%nat, 1%nat)) (Return tt) (Raise demo.refused)
            (Return NoContentAttribute) (Return "[]") (Return tt))
         "http://localhost:8000/sse" "sse" app.api_get_episodes
         {| get_json := Return (VDict []) |} (demo.fresh "" ""))
    = Return (app.error_response demo.refused)
  ∧ List.filter is_network
      (events_since (demo.fresh "" "")
         (snd (app.post
                 (demo.staged demo.loads (Return (0%nat, 1%nat)) (Return tt)
                    (Raise demo.refused) (Return NoContentAttribute) (Return "[]")
                    (Return tt))
                 "http://localhost:8000/sse" "sse" app.api_get_episodes
                 {| get_json := Return (VDict []) |} (demo.fresh "" ""))))
    = [TransportEnter "http://localhost:8000/sse"; SessionEnter; SessionInitialize;
       SessionExit (Some demo.refused); TransportExit (Some demo.refused)].
Proof.
  apply (route_handshake_failure
           (demo.staged demo.loads (Return (0%nat, 1%nat)) (Return tt) (Raise demo.refused)
              (Return NoContentAttribute) (Return "[]") (Return tt))
           "http://localhost:8000/sse" "sse" app.api_get_episodes
           {| get_json := Return (VDict []) |} [] (demo.fresh "" "")
           (0%nat, 1%nat) demo.refused).
  - reflexivity.
  - reflexivity.
  - reflexivity.
  - reflexivity.
  - reflexivity.
Defined.

Lemma demo_client_witness :
  fst (demo_client demo.up "sse" "http://localhost:8000/sse" demo.started) = Return tt.
Proof.
  apply (proj1 (demo_client_round_trip demo.up (0%nat, 1%nat)
                  "http://localhost:8000/sse" demo.started demo_up_is_up)).
Defined.

Lemma example_usage_witness :
  fst (example_usage.example_usage demo.up demo.started) = Return tt.
Proof.
  apply (proj1 (example_usage_round_trip demo.up (0%nat, 1%nat) demo.started
                  demo_up_is_up)).
Defined.
